(** * The live conversation session of [features/Audio/LiveConversation.tsx]

    A shallow embedding of the React component [LiveConversation]: its
    [useState] hooks, its [useRef] cells, the browser objects the cells
    point to, and the callbacks [startSession], [stopSession], [onopen],
    [onmessage], [onclose] and [onerror].

    Conventions.
    - Browser objects (media streams, audio contexts, audio nodes, the
      session promise) are handles, natural numbers chosen by the browser;
      what the browser knows about them is kept in [Browser].
    - Times on the audio clock ([currentTime], [duration], the playback
      cursor) are rationals.  The source computes them in double precision;
      the only operations are [Math.max] and [+], which are monotone there
      as well.
    - A callback runs to its end or to its first [await] without being
      interrupted.  React is taken to render between two callbacks: a
      callback called through the latest render reads the hook values set by
      the callbacks before it, and the state updaters that a callback has
      queued run before the next callback.  What a call through the callback
      of an older render tests is [startSession_begin_in]. *)

From Stdlib Require Import QArith Qminmax Lqa.
From stdpp Require Import gmap strings list.

(** ** JavaScript values *)

Inductive JsError :=
| TypeError      (* a property read on [undefined] or [null] *)
| DecodeError.   (* [decode] or [decodeAudioData] failed *)

(** A string used as a condition: [undefined] and [''] are falsy. *)
Definition truthy (o : option string) : bool :=
  match o with
  | Some (String _ _) => true
  | _ => false
  end.

Definition nonempty (s : string) : bool := truthy (Some s).

(** A boolean used as a condition: [undefined] is falsy. *)
Definition truthy_flag (o : option bool) : bool :=
  match o with
  | Some b => b
  | None => false
  end.

(** Optional chaining [o?.f]: [undefined] when [o] is. *)
Definition chain {A B : Type} (o : option A) (f : A -> option B) : option B :=
  match o with
  | Some a => f a
  | None => None
  end.
Infix "?>" := chain (at level 50, left associativity).

(** The text a truthy condition has let through. *)
Definition text_of (o : option string) : string := default "" o.

(** ** Messages of the endpoint: [LiveServerMessage] of the SDK.
    Every field is optional there. *)

Module Msg.

Record Blob := { data : option string }.

Record Part := { inlineData : option Blob; partText : option string }.

Record Content := { parts : option (list Part) }.

Record Transcription := { text : option string }.

Record LiveServerContent := {
  modelTurn : option Content;
  turnComplete : option bool;
  inputTranscription : option Transcription;
  outputTranscription : option Transcription
}.

Record LiveServerMessage := { serverContent : option LiveServerContent }.

End Msg.

(** ** The transcript *)

Inductive Speaker := You | Gemini.

Record TranscriptionEntry := { speaker : Speaker; text : string }.

(** ** The component *)

(** [useState] hooks.  Of [ai] only whether it is [null] matters. *)
Record Hooks := {
  ai : bool;
  isSessionActive : bool;
  isConnecting : bool;
  error : option string;
  transcription : list TranscriptionEntry
}.

(** [useRef] cells. *)
Record Refs := {
  sessionPromiseRef : option nat;
  streamRef : option nat;
  inputAudioContextRef : option nat;
  outputAudioContextRef : option nat;
  scriptProcessorRef : option nat;
  mediaStreamSourceRef : option nat;
  nextStartTimeRef : Q;
  audioSourcesRef : gset nat;
  currentInputTranscriptionRef : string;
  currentOutputTranscriptionRef : string
}.

(** One call [source.start(t)] on a buffer of the given duration. *)
Record Segment := { seg_source : nat; seg_start : Q; seg_duration : Q }.

Definition seg_end (g : Segment) : Q := (seg_start g + seg_duration g)%Q.

(** What the browser holds for the page. *)
Record Browser := {
  liveStreams : gset nat;      (* media streams whose tracks are live *)
  openContexts : gset nat;     (* audio contexts not closed *)
  connectedNodes : gset nat;   (* audio nodes connected to an output *)
  closeRequested : gset nat;   (* session promises with [s => s.close()] attached *)
  started : list Segment;      (* calls of [source.start], oldest first *)
  stoppedSources : gset nat;   (* sources on which [stop()] was called *)
  console : list string        (* lines of [console.error], oldest first *)
}.

Record Component := { hooks : Hooks; refs : Refs; browser : Browser }.

(** The component as it is mounted. *)
Definition mounted (key : bool) : Component :=
  {| hooks := {| ai := key; isSessionActive := false; isConnecting := false;
                 error := None; transcription := [] |};
     refs := {| sessionPromiseRef := None; streamRef := None;
                inputAudioContextRef := None; outputAudioContextRef := None;
                scriptProcessorRef := None; mediaStreamSourceRef := None;
                nextStartTimeRef := 0; audioSourcesRef := ∅;
                currentInputTranscriptionRef := "";
                currentOutputTranscriptionRef := "" |};
     browser := {| liveStreams := ∅; openContexts := ∅; connectedNodes := ∅;
                   closeRequested := ∅; started := []; stoppedSources := ∅;
                   console := [] |} |}.

(** *** Assignments to one hook, one cell, one browser fact *)

Definition on_hooks (f : Hooks -> Hooks) (s : Component) : Component :=
  {| hooks := f (hooks s); refs := refs s; browser := browser s |}.

Definition on_refs (f : Refs -> Refs) (s : Component) : Component :=
  {| hooks := hooks s; refs := f (refs s); browser := browser s |}.

Definition on_browser (f : Browser -> Browser) (s : Component) : Component :=
  {| hooks := hooks s; refs := refs s; browser := f (browser s) |}.

Definition setIsSessionActive (v : bool) : Component -> Component :=
  on_hooks (fun h =>
    {| ai := ai h; isSessionActive := v; isConnecting := isConnecting h;
       error := error h; transcription := transcription h |}).

Definition setIsConnecting (v : bool) : Component -> Component :=
  on_hooks (fun h =>
    {| ai := ai h; isSessionActive := isSessionActive h; isConnecting := v;
       error := error h; transcription := transcription h |}).

Definition setError (v : option string) : Component -> Component :=
  on_hooks (fun h =>
    {| ai := ai h; isSessionActive := isSessionActive h;
       isConnecting := isConnecting h; error := v;
       transcription := transcription h |}).

(** [setTranscription] with a value; with a function see [setTranscription]
    below. *)
Definition commitTranscription (v : list TranscriptionEntry) : Component -> Component :=
  on_hooks (fun h =>
    {| ai := ai h; isSessionActive := isSessionActive h;
       isConnecting := isConnecting h; error := error h; transcription := v |}).

Definition set_sessionPromiseRef (v : option nat) : Component -> Component :=
  on_refs (fun r =>
    {| sessionPromiseRef := v; streamRef := streamRef r;
       inputAudioContextRef := inputAudioContextRef r;
       outputAudioContextRef := outputAudioContextRef r;
       scriptProcessorRef := scriptProcessorRef r;
       mediaStreamSourceRef := mediaStreamSourceRef r;
       nextStartTimeRef := nextStartTimeRef r;
       audioSourcesRef := audioSourcesRef r;
       currentInputTranscriptionRef := currentInputTranscriptionRef r;
       currentOutputTranscriptionRef := currentOutputTranscriptionRef r |}).

Definition set_streamRef (v : option nat) : Component -> Component :=
  on_refs (fun r =>
    {| sessionPromiseRef := sessionPromiseRef r; streamRef := v;
       inputAudioContextRef := inputAudioContextRef r;
       outputAudioContextRef := outputAudioContextRef r;
       scriptProcessorRef := scriptProcessorRef r;
       mediaStreamSourceRef := mediaStreamSourceRef r;
       nextStartTimeRef := nextStartTimeRef r;
       audioSourcesRef := audioSourcesRef r;
       currentInputTranscriptionRef := currentInputTranscriptionRef r;
       currentOutputTranscriptionRef := currentOutputTranscriptionRef r |}).

Definition set_inputAudioContextRef (v : option nat) : Component -> Component :=
  on_refs (fun r =>
    {| sessionPromiseRef := sessionPromiseRef r; streamRef := streamRef r;
       inputAudioContextRef := v;
       outputAudioContextRef := outputAudioContextRef r;
       scriptProcessorRef := scriptProcessorRef r;
       mediaStreamSourceRef := mediaStreamSourceRef r;
       nextStartTimeRef := nextStartTimeRef r;
       audioSourcesRef := audioSourcesRef r;
       currentInputTranscriptionRef := currentInputTranscriptionRef r;
       currentOutputTranscriptionRef := currentOutputTranscriptionRef r |}).

Definition set_outputAudioContextRef (v : option nat) : Component -> Component :=
  on_refs (fun r =>
    {| sessionPromiseRef := sessionPromiseRef r; streamRef := streamRef r;
       inputAudioContextRef := inputAudioContextRef r;
       outputAudioContextRef := v;
       scriptProcessorRef := scriptProcessorRef r;
       mediaStreamSourceRef := mediaStreamSourceRef r;
       nextStartTimeRef := nextStartTimeRef r;
       audioSourcesRef := audioSourcesRef r;
       currentInputTranscriptionRef := currentInputTranscriptionRef r;
       currentOutputTranscriptionRef := currentOutputTranscriptionRef r |}).

Definition set_scriptProcessorRef (v : option nat) : Component -> Component :=
  on_refs (fun r =>
    {| sessionPromiseRef := sessionPromiseRef r; streamRef := streamRef r;
       inputAudioContextRef := inputAudioContextRef r;
       outputAudioContextRef := outputAudioContextRef r;
       scriptProcessorRef := v;
       mediaStreamSourceRef := mediaStreamSourceRef r;
       nextStartTimeRef := nextStartTimeRef r;
       audioSourcesRef := audioSourcesRef r;
       currentInputTranscriptionRef := currentInputTranscriptionRef r;
       currentOutputTranscriptionRef := currentOutputTranscriptionRef r |}).

Definition set_mediaStreamSourceRef (v : option nat) : Component -> Component :=
  on_refs (fun r =>
    {| sessionPromiseRef := sessionPromiseRef r; streamRef := streamRef r;
       inputAudioContextRef := inputAudioContextRef r;
       outputAudioContextRef := outputAudioContextRef r;
       scriptProcessorRef := scriptProcessorRef r;
       mediaStreamSourceRef := v;
       nextStartTimeRef := nextStartTimeRef r;
       audioSourcesRef := audioSourcesRef r;
       currentInputTranscriptionRef := currentInputTranscriptionRef r;
       currentOutputTranscriptionRef := currentOutputTranscriptionRef r |}).

Definition set_nextStartTimeRef (v : Q) : Component -> Component :=
  on_refs (fun r =>
    {| sessionPromiseRef := sessionPromiseRef r; streamRef := streamRef r;
       inputAudioContextRef := inputAudioContextRef r;
       outputAudioContextRef := outputAudioContextRef r;
       scriptProcessorRef := scriptProcessorRef r;
       mediaStreamSourceRef := mediaStreamSourceRef r;
       nextStartTimeRef := v;
       audioSourcesRef := audioSourcesRef r;
       currentInputTranscriptionRef := currentInputTranscriptionRef r;
       currentOutputTranscriptionRef := currentOutputTranscriptionRef r |}).

Definition set_audioSourcesRef (v : gset nat) : Component -> Component :=
  on_refs (fun r =>
    {| sessionPromiseRef := sessionPromiseRef r; streamRef := streamRef r;
       inputAudioContextRef := inputAudioContextRef r;
       outputAudioContextRef := outputAudioContextRef r;
       scriptProcessorRef := scriptProcessorRef r;
       mediaStreamSourceRef := mediaStreamSourceRef r;
       nextStartTimeRef := nextStartTimeRef r;
       audioSourcesRef := v;
       currentInputTranscriptionRef := currentInputTranscriptionRef r;
       currentOutputTranscriptionRef := currentOutputTranscriptionRef r |}).

Definition set_currentInputTranscriptionRef (v : string) : Component -> Component :=
  on_refs (fun r =>
    {| sessionPromiseRef := sessionPromiseRef r; streamRef := streamRef r;
       inputAudioContextRef := inputAudioContextRef r;
       outputAudioContextRef := outputAudioContextRef r;
       scriptProcessorRef := scriptProcessorRef r;
       mediaStreamSourceRef := mediaStreamSourceRef r;
       nextStartTimeRef := nextStartTimeRef r;
       audioSourcesRef := audioSourcesRef r;
       currentInputTranscriptionRef := v;
       currentOutputTranscriptionRef := currentOutputTranscriptionRef r |}).

Definition set_currentOutputTranscriptionRef (v : string) : Component -> Component :=
  on_refs (fun r =>
    {| sessionPromiseRef := sessionPromiseRef r; streamRef := streamRef r;
       inputAudioContextRef := inputAudioContextRef r;
       outputAudioContextRef := outputAudioContextRef r;
       scriptProcessorRef := scriptProcessorRef r;
       mediaStreamSourceRef := mediaStreamSourceRef r;
       nextStartTimeRef := nextStartTimeRef r;
       audioSourcesRef := audioSourcesRef r;
       currentInputTranscriptionRef := currentInputTranscriptionRef r;
       currentOutputTranscriptionRef := v |}).

Definition set_liveStreams (v : gset nat) : Component -> Component :=
  on_browser (fun b =>
    {| liveStreams := v; openContexts := openContexts b;
       connectedNodes := connectedNodes b; closeRequested := closeRequested b;
       started := started b; stoppedSources := stoppedSources b;
       console := console b |}).

Definition set_openContexts (v : gset nat) : Component -> Component :=
  on_browser (fun b =>
    {| liveStreams := liveStreams b; openContexts := v;
       connectedNodes := connectedNodes b; closeRequested := closeRequested b;
       started := started b; stoppedSources := stoppedSources b;
       console := console b |}).

Definition set_connectedNodes (v : gset nat) : Component -> Component :=
  on_browser (fun b =>
    {| liveStreams := liveStreams b; openContexts := openContexts b;
       connectedNodes := v; closeRequested := closeRequested b;
       started := started b; stoppedSources := stoppedSources b;
       console := console b |}).

Definition set_closeRequested (v : gset nat) : Component -> Component :=
  on_browser (fun b =>
    {| liveStreams := liveStreams b; openContexts := openContexts b;
       connectedNodes := connectedNodes b; closeRequested := v;
       started := started b; stoppedSources := stoppedSources b;
       console := console b |}).

Definition set_started (v : list Segment) : Component -> Component :=
  on_browser (fun b =>
    {| liveStreams := liveStreams b; openContexts := openContexts b;
       connectedNodes := connectedNodes b; closeRequested := closeRequested b;
       started := v; stoppedSources := stoppedSources b;
       console := console b |}).

Definition set_stoppedSources (v : gset nat) : Component -> Component :=
  on_browser (fun b =>
    {| liveStreams := liveStreams b; openContexts := openContexts b;
       connectedNodes := connectedNodes b; closeRequested := closeRequested b;
       started := started b; stoppedSources := v;
       console := console b |}).

Definition set_console (v : list string) : Component -> Component :=
  on_browser (fun b =>
    {| liveStreams := liveStreams b; openContexts := openContexts b;
       connectedNodes := connectedNodes b; closeRequested := closeRequested b;
       started := started b; stoppedSources := stoppedSources b;
       console := v |}).

(** ** How a callback ends *)

Inductive Step :=
| Returned (s : Component)              (* ran to its end *)
| Suspended (s : Component)             (* stands at an [await] *)
| Threw (e : JsError) (s : Component).  (* left by an exception; for an
                                           [async] callback its promise is
                                           rejected *)

Definition state_of (r : Step) : Component :=
  match r with
  | Returned s | Suspended s | Threw _ s => s
  end.

(** The value of an expression, or the exception it raises. *)
Inductive Completion (A : Type) :=
| Normal (a : A)
| Throw (e : JsError).
Arguments Normal {A} a.
Arguments Throw {A} e.

(** The handle in a cell, as a set: what [cell.current?.f()] acts on. *)
Definition handle_set (o : option nat) : gset nat :=
  match o with
  | Some h => {[ h ]}
  | None => ∅
  end.

(** ** [stopSession], lines 134-158 *)

Definition stopSession (closePromise : bool) (s : Component) : Component :=
  (* if (closePromise) sessionPromiseRef.current?.then(s => s.close()) *)
  let s := if closePromise
           then set_closeRequested
                  (closeRequested (browser s) ∪ handle_set (sessionPromiseRef (refs s))) s
           else s in
  (* scriptProcessorRef.current?.disconnect(); scriptProcessorRef.current = null *)
  let s := set_connectedNodes
             (connectedNodes (browser s) ∖ handle_set (scriptProcessorRef (refs s))) s in
  let s := set_scriptProcessorRef None s in
  (* mediaStreamSourceRef.current?.disconnect(); mediaStreamSourceRef.current = null *)
  let s := set_connectedNodes
             (connectedNodes (browser s) ∖ handle_set (mediaStreamSourceRef (refs s))) s in
  let s := set_mediaStreamSourceRef None s in
  (* inputAudioContextRef.current?.close(); outputAudioContextRef.current?.close();
     the promises that [close] returns are dropped, the cells keep the contexts *)
  let s := set_openContexts
             (openContexts (browser s) ∖ handle_set (inputAudioContextRef (refs s))) s in
  let s := set_openContexts
             (openContexts (browser s) ∖ handle_set (outputAudioContextRef (refs s))) s in
  (* streamRef.current?.getTracks().forEach(track => track.stop()); streamRef.current = null *)
  let s := set_liveStreams
             (liveStreams (browser s) ∖ handle_set (streamRef (refs s))) s in
  let s := set_streamRef None s in
  (* for (const source of audioSourcesRef.current.values()) source.stop() *)
  let s := set_stoppedSources
             (stoppedSources (browser s) ∪ audioSourcesRef (refs s)) s in
  (* audioSourcesRef.current.clear(); nextStartTimeRef.current = 0 *)
  let s := set_audioSourcesRef ∅ s in
  let s := set_nextStartTimeRef 0 s in
  (* setIsSessionActive(false); setIsConnecting(false) *)
  let s := setIsSessionActive false s in
  setIsConnecting false s.

(** ** [startSession], lines 43-132 *)

(** What the browser and the SDK answer to one start. *)
Inductive Answer :=
| Given (h : nat)   (* the call gives an object *)
| Refused.          (* the call throws, or its awaited promise rejects *)

Record StartEnv := {
  getUserMedia : Answer;     (* await navigator.mediaDevices.getUserMedia *)
  newInputContext : nat;     (* new AudioContext({ sampleRate: 16000 }) *)
  newOutputContext : nat;    (* new AudioContext({ sampleRate: 24000 }) *)
  connect : Answer           (* ai.live.connect(...), not awaited *)
}.

(** The guard of line 44, on the hook values of the latest render.  The
    callback of an older render tests the values that render has seen:
    [startSession_begin_in]. *)
Definition start_refused (s : Component) : bool :=
  negb (ai (hooks s)) || isConnecting (hooks s) || isSessionActive (hooks s).

(** Lines 44-51, up to [await getUserMedia]. *)
Definition startSession_begin (s : Component) : Step :=
  (* if (!ai || isConnecting || isSessionActive) return *)
  if start_refused s then Returned s
  else
    (* setIsConnecting(true); setError(null); setTranscription([]) *)
    let s := setIsConnecting true s in
    let s := setError None s in
    let s := commitTranscription [] s in
    Suspended s.

(** The [catch] block, lines 127-131. *)
Definition start_catch (s : Component) : Component :=
  (* console.error("Failed to start session:", err); setError(...);
     setIsConnecting(false) *)
  let s := set_console (console (browser s) ++ ["Failed to start session:"]) s in
  let s := setError
             (Some "Could not get microphone permissions. Please allow access and try again.") s in
  setIsConnecting false s.

(** Lines 51-126, from the answer of [getUserMedia] on. *)
Definition startSession_resume (env : StartEnv) (s : Component) : Step :=
  match getUserMedia env with
  | Refused => Returned (start_catch s)
  | Given stream =>
      (* streamRef.current = await navigator.mediaDevices.getUserMedia({ audio: true }) *)
      let s := set_liveStreams ({[ stream ]} ∪ liveStreams (browser s)) s in
      let s := set_streamRef (Some stream) s in
      (* inputAudioContextRef.current = new AudioContext({ sampleRate: 16000 }), and
         the same for the output context at 24000 *)
      let s := set_openContexts ({[ newInputContext env ]} ∪ openContexts (browser s)) s in
      let s := set_inputAudioContextRef (Some (newInputContext env)) s in
      let s := set_openContexts ({[ newOutputContext env ]} ∪ openContexts (browser s)) s in
      let s := set_outputAudioContextRef (Some (newOutputContext env)) s in
      (* sessionPromiseRef.current = ai.live.connect({ ... }) *)
      match connect env with
      | Refused => Returned (start_catch s)
      | Given promise => Returned (set_sessionPromiseRef (Some promise) s)
      end
  end.

(** One call of [startSession] whose [await] is answered at once. *)
Definition startSession (env : StartEnv) (s : Component) : Step :=
  match startSession_begin s with
  | Suspended s' => startSession_resume env s'
  | r => r
  end.

(** ** The callbacks given to [connect] *)

(** [onopen], lines 59-79; the browser names the two nodes it creates.  The
    frames that [onaudioprocess] sends afterwards leave the component as it
    is. *)
Definition onopen (source processor : nat) (s : Component) : Component :=
  match inputAudioContextRef (refs s), streamRef (refs s) with
  | Some _, Some _ =>
      (* the two nodes are created, connected to each other and to the
         destination; then setIsConnecting(false); setIsSessionActive(true) *)
      let s := set_mediaStreamSourceRef (Some source) s in
      let s := set_scriptProcessorRef (Some processor) s in
      let s := set_connectedNodes ({[ source ]} ∪ connectedNodes (browser s)) s in
      let s := set_connectedNodes ({[ processor ]} ∪ connectedNodes (browser s)) s in
      let s := setIsConnecting false s in
      setIsSessionActive true s
  | _, _ => s
  end.

(** [onclose], lines 112-114. *)
Definition onclose (s : Component) : Component := stopSession false s.

(** [onerror], lines 115-119. *)
Definition onerror (s : Component) : Component :=
  let s := set_console (console (browser s) ++ ["Session error:"]) s in
  let s := setError
             (Some "A session error occurred. The connection may have been lost.") s in
  stopSession false s.

(** The listener of line 106. *)
Definition onended (source : nat) (s : Component) : Component :=
  set_audioSourcesRef (audioSourcesRef (refs s) ∖ {[ source ]}) s.

(** ** [setTranscription] with a function

    Lines 90 and 94 pass [prev => [...prev, {speaker, text: cell.current}]].
    The function reads the cell when React calls it, and the next line of the
    source empties the cell; so the text of the entry depends on when React
    calls the function.  The source does not fix that. *)

Inductive UpdaterTiming :=
| EveryCall    (* inside every call of the setter: synchronous rendering *)
| FirstCall    (* inside the first call of a callback only: the eager state
                  React computes for a component without pending updates *)
| AtRender.    (* when the component renders next, after the callback *)

Inductive Updater :=
| SetTo (l : list TranscriptionEntry)   (* a value, or a state computed eagerly *)
| AppendFrom (sp : Speaker).            (* the function of line 90 or of line 94 *)

Definition accumulator (sp : Speaker) (r : Refs) : string :=
  match sp with
  | You => currentInputTranscriptionRef r
  | Gemini => currentOutputTranscriptionRef r
  end.

(** React calls the function, with the cells as they are at that moment. *)
Definition run_updater (u : Updater) (r : Refs) (prev : list TranscriptionEntry)
  : list TranscriptionEntry :=
  match u with
  | SetTo l => l
  | AppendFrom sp => prev ++ [ {| speaker := sp; text := accumulator sp r |} ]
  end.

(** A callback at work: the component and the updates React has queued. *)
Definition Running : Type := Component * list Updater.

Definition setTranscription (timing : UpdaterTiming) (u : Updater) (w : Running) : Running :=
  let '(s, q) := w in
  match timing, q with
  | EveryCall, _ =>
      (commitTranscription (run_updater u (refs s) (transcription (hooks s))) s, q)
  | FirstCall, [] =>
      (s, [SetTo (run_updater u (refs s) (transcription (hooks s)))])
  | _, _ => (s, q ++ [u])
  end.

(** The render after the callback: the queued updates in order, on the
    cells as the callback has left them. *)
Definition render (w : Running) : Component :=
  let '(s, q) := w in
  commitTranscription
    (fold_left (fun prev u => run_updater u (refs s) prev) q (transcription (hooks s))) s.

(** ** [onmessage], lines 80-111 *)

(** [decode] and [decodeAudioData] come from [utils/audioUtils]; the
    callback sees only what they answer. *)
Inductive DecodeResult :=
| Decoded (duration : Q)   (* an [AudioBuffer] of this duration *)
| DecodeFailed.            (* [decode] throws or [decodeAudioData] rejects *)

(** Lines 81-86: the fragments of the message go to the accumulators. *)
Definition accumulate (m : Msg.LiveServerMessage) (s : Component) : Component :=
  let out := Msg.serverContent m ?> Msg.outputTranscription ?> Msg.text in
  let s := if truthy out
           then set_currentOutputTranscriptionRef
                  (currentOutputTranscriptionRef (refs s) +:+ text_of out) s
           else s in
  let inp := Msg.serverContent m ?> Msg.inputTranscription ?> Msg.text in
  if truthy inp
  then set_currentInputTranscriptionRef
         (currentInputTranscriptionRef (refs s) +:+ text_of inp) s
  else s.

(** Lines 89-96: the body of [if (turnComplete)]. *)
Definition finalize (timing : UpdaterTiming) (w : Running) : Running :=
  let w := if nonempty (currentInputTranscriptionRef (refs w.1))
           then let w := setTranscription timing (AppendFrom You) w in
                (set_currentInputTranscriptionRef "" w.1, w.2)
           else w in
  if nonempty (currentOutputTranscriptionRef (refs w.1))
  then let w := setTranscription timing (AppendFrom Gemini) w in
       (set_currentOutputTranscriptionRef "" w.1, w.2)
  else w.

(** Line 99: [message.serverContent?.modelTurn?.parts[0]?.inlineData.data].
    Each [?.] ends the whole chain with [undefined]; the two plain accesses
    [.parts[0]] and [.inlineData.data] throw on [undefined]. *)
Definition base64Audio (m : Msg.LiveServerMessage) : Completion (option string) :=
  match Msg.serverContent m ?> Msg.modelTurn with
  | None => Normal None
  | Some turn =>
      match Msg.parts turn with
      | None => Throw TypeError
      | Some ps =>
          match ps with
          | [] => Normal None
          | p :: _ =>
              match Msg.inlineData p with
              | None => Throw TypeError
              | Some blob => Normal (Msg.data blob)
              end
          end
      end
  end.

(** [outputAudioContextRef.current] as a condition. *)
Definition has_output_context (s : Component) : bool :=
  match outputAudioContextRef (refs s) with
  | Some _ => true
  | None => false
  end.

(** Lines 81-102, up to [await decodeAudioData]; [clock] is
    [outputAudioContextRef.current.currentTime].  The argument
    [decode(base64Audio)] of line 102 is evaluated before the [await]; its
    throw is delivered with the answer of the decoder, as [DecodeFailed],
    and [onmessage_to_await] tells the two apart. *)
Definition onmessage_sync (timing : UpdaterTiming) (clock : Q)
    (m : Msg.LiveServerMessage) (s : Component) : Step :=
  let s := accumulate m s in
  let w := if truthy_flag (Msg.serverContent m ?> Msg.turnComplete)
           then finalize timing (s, [])
           else (s, []) in
  match base64Audio m with
  | Throw e => Threw e (render w)
  | Normal audio =>
      if truthy audio && has_output_context w.1
      then
        (* nextStartTimeRef.current = Math.max(nextStartTimeRef.current, currentTime) *)
        let s := set_nextStartTimeRef (Qmax (nextStartTimeRef (refs w.1)) clock) w.1 in
        Suspended (render (s, w.2))
      else Returned (render w)
  end.

(** Lines 102-109, from the answer of the decoder on; the browser names the
    source node it creates. *)
Definition onmessage_resume (dec : DecodeResult) (source : nat) (s : Component) : Step :=
  match dec with
  | DecodeFailed => Threw DecodeError s
  | Decoded duration =>
      match outputAudioContextRef (refs s) with
      | None => Threw TypeError s
      | Some _ =>
          (* source.connect(outputAudioContextRef.current.destination) *)
          let s := set_connectedNodes ({[ source ]} ∪ connectedNodes (browser s)) s in
          (* source.start(nextStartTimeRef.current) *)
          let s := set_started
                     (started (browser s) ++
                        [ {| seg_source := source;
                             seg_start := nextStartTimeRef (refs s);
                             seg_duration := duration |} ]) s in
          (* nextStartTimeRef.current += audioBuffer.duration *)
          let s := set_nextStartTimeRef (nextStartTimeRef (refs s) + duration) s in
          (* audioSourcesRef.current.add(source) *)
          Returned (set_audioSourcesRef ({[ source ]} ∪ audioSourcesRef (refs s)) s)
      end
  end.

(** One message handled with no other callback in between. *)
Definition onmessage (timing : UpdaterTiming) (clock : Q) (m : Msg.LiveServerMessage)
    (dec : DecodeResult) (source : nat) (s : Component) : Step :=
  match onmessage_sync timing clock m s with
  | Suspended s' => onmessage_resume dec source s'
  | r => r
  end.

(** ** The component as a machine: one event, one callback *)

Inductive Event :=
| StartClicked                                        (* [startSession] to its [await] *)
| MediaSettled (env : StartEnv)                       (* the rest of [startSession] *)
| StopCalled (closePromise : bool)                    (* [stopSession] *)
| Opened (source processor : nat)                     (* [onopen] *)
| MessageArrived (clock : Q) (m : Msg.LiveServerMessage)   (* [onmessage] to its [await] *)
| DecodeSettled (dec : DecodeResult) (source : nat)   (* the rest of [onmessage] *)
| Closed                                              (* [onclose] *)
| Errored                                             (* [onerror] *)
| Ended (source : nat).                               (* a source has played to its end *)

Definition dispatch (timing : UpdaterTiming) (ev : Event) (s : Component) : Step :=
  match ev with
  | StartClicked => startSession_begin s
  | MediaSettled env => startSession_resume env s
  | StopCalled closePromise => Returned (stopSession closePromise s)
  | Opened source processor => Returned (onopen source processor s)
  | MessageArrived clock m => onmessage_sync timing clock m s
  | DecodeSettled dec source => onmessage_resume dec source s
  | Closed => Returned (onclose s)
  | Errored => Returned (onerror s)
  | Ended source => Returned (onended source s)
  end.

(** The component after a sequence of events. *)
Definition run (timing : UpdaterTiming) (evs : list Event) (s : Component) : Component :=
  fold_left (fun s ev => state_of (dispatch timing ev s)) evs s.

(** ** Notions used in the statements *)

(** Neither connecting nor active. *)
Definition idle (s : Component) : bool :=
  negb (isConnecting (hooks s)) && negb (isSessionActive (hooks s)).

(** What a stop leaves of [s]: nothing pending, the cursor where it is at
    mount, the capture nodes disconnected and forgotten, the tracks of the
    microphone stream stopped and the stream forgotten, the flags down. *)
Definition torn_down (s s' : Component) : Prop :=
  audioSourcesRef (refs s') = ∅ ∧
  audioSourcesRef (refs s) ⊆ stoppedSources (browser s') ∧
  nextStartTimeRef (refs s') = nextStartTimeRef (refs (mounted (ai (hooks s)))) ∧
  scriptProcessorRef (refs s') = None ∧
  mediaStreamSourceRef (refs s') = None ∧
  connectedNodes (browser s') =
    connectedNodes (browser s) ∖ handle_set (scriptProcessorRef (refs s))
                               ∖ handle_set (mediaStreamSourceRef (refs s)) ∧
  streamRef (refs s') = None ∧
  liveStreams (browser s') = liveStreams (browser s) ∖ handle_set (streamRef (refs s)) ∧
  idle s' = true.

(** Nothing of a start is held: no stream, no open context, no capture
    node. *)
Definition nothing_held (s : Component) : Prop :=
  streamRef (refs s) = None ∧
  liveStreams (browser s) = ∅ ∧
  openContexts (browser s) = ∅ ∧
  scriptProcessorRef (refs s) = None ∧
  mediaStreamSourceRef (refs s) = None.

(** The segments started between [s] and [s']. *)
Definition scheduled_since (s s' : Component) : list Segment :=
  drop (length (started (browser s))) (started (browser s')).

Definition placement (g : Segment) : Q * Q := (seg_start g, seg_duration g).

(** Each segment starts no earlier than the one before it ends. *)
Fixpoint back_to_back (l : list Segment) : bool :=
  match l with
  | [] => true
  | g :: rest =>
      match rest with
      | [] => true
      | g' :: _ => Qle_bool (seg_end g) (seg_start g')
      end && back_to_back rest
  end.

Fixpoint starts_nondecreasing (l : list Segment) : bool :=
  match l with
  | [] => true
  | g :: rest =>
      match rest with
      | [] => true
      | g' :: _ => Qle_bool (seg_start g) (seg_start g')
      end && starts_nondecreasing rest
  end.

(** An event that does not end the session; a decoded buffer has a duration
    that is not negative. *)
Definition session_goes_on (ev : Event) : bool :=
  match ev with
  | StopCalled _ | Closed | Errored => false
  | DecodeSettled (Decoded duration) _ => Qle_bool 0 duration
  | _ => true
  end.

(** The message carries an audio payload that line 100 lets through. *)
Definition carries_audio (m : Msg.LiveServerMessage) : bool :=
  match base64Audio m with
  | Normal audio => truthy audio
  | Throw _ => false
  end.

(** An inbound audio payload: the clock when it arrives, the message, the
    duration of the decoded buffer and the node that plays it. *)
Record Payload := {
  arrival : Q;
  message : Msg.LiveServerMessage;
  duration : Q;
  node : nat
}.

(** Payloads handled one after the other, each to its end. *)
Definition payload_events (ps : list Payload) : list Event :=
  flat_map (fun p => [ MessageArrived (arrival p) (message p);
                       DecodeSettled (Decoded (duration p)) (node p) ]) ps.

(** The schedule as the specification words it: a segment starts at
    [max(cursor, clock)] and the cursor advances by its duration. *)
Fixpoint spec_schedule (cursor : Q) (ps : list Payload) : list (Q * Q) :=
  match ps with
  | [] => []
  | p :: rest =>
      let start := Qmax cursor (arrival p) in
      (start, duration p) :: spec_schedule (start + duration p) rest
  end.

(** React calls the function of the first update inside the setter. *)
Definition first_update_at_call (timing : UpdaterTiming) : bool :=
  match timing with
  | AtRender => false
  | _ => true
  end.

(** The fragment a message adds to an accumulator. *)
Definition input_fragment (m : Msg.LiveServerMessage) : string :=
  text_of (Msg.serverContent m ?> Msg.inputTranscription ?> Msg.text).

Definition output_fragment (m : Msg.LiveServerMessage) : string :=
  text_of (Msg.serverContent m ?> Msg.outputTranscription ?> Msg.text).

(** A decode failure handled as the error taxonomy words it: the callback
    ends normally, a line is logged, nothing is scheduled and the flags of
    the session stay. *)
Definition decode_failure_contained (s : Component) (r : Step) : Prop :=
  (∃ s', r = Returned s') ∧
  length (console (browser s)) < length (console (browser (state_of r))) ∧
  started (browser (state_of r)) = started (browser s) ∧
  audioSourcesRef (refs (state_of r)) = audioSourcesRef (refs s) ∧
  isSessionActive (hooks (state_of r)) = isSessionActive (hooks s).

(** A failed start handled as the start operation words it: an error is
    shown, the session is idle, nothing acquired is left. *)
Definition failed_start_cleaned (s' : Component) : Prop :=
  is_Some (error (hooks s')) ∧ idle s' = true ∧ nothing_held s'.

(** ** The callbacks in one piece

    Closed forms of what the callbacks above compute; the lemmas of the
    second part prove them equal to the callbacks. *)

(** The component once line 54 has run: the stream and the two contexts are
    acquired. *)
Definition acquired (stream : nat) (env : StartEnv) (s : Component) : Component :=
  {| hooks := hooks s;
     refs :=
       {| sessionPromiseRef := sessionPromiseRef (refs s);
          streamRef := Some stream;
          inputAudioContextRef := Some (newInputContext env);
          outputAudioContextRef := Some (newOutputContext env);
          scriptProcessorRef := scriptProcessorRef (refs s);
          mediaStreamSourceRef := mediaStreamSourceRef (refs s);
          nextStartTimeRef := nextStartTimeRef (refs s);
          audioSourcesRef := audioSourcesRef (refs s);
          currentInputTranscriptionRef := currentInputTranscriptionRef (refs s);
          currentOutputTranscriptionRef := currentOutputTranscriptionRef (refs s) |};
     browser :=
       {| liveStreams := {[ stream ]} ∪ liveStreams (browser s);
          openContexts :=
            {[ newOutputContext env ]} ∪ ({[ newInputContext env ]} ∪ openContexts (browser s));
          connectedNodes := connectedNodes (browser s);
          closeRequested := closeRequested (browser s);
          started := started (browser s);
          stoppedSources := stoppedSources (browser s);
          console := console (browser s) |} |}.

(** The entries one turn completion appends, [i] and [o] being the two
    accumulators when line 88 is reached.  The text is what the function of
    line 90 or 94 finds in its cell when React calls it. *)
Definition turn_entries (timing : UpdaterTiming) (i o : string) : list TranscriptionEntry :=
  (if nonempty i
   then [ {| speaker := You; text := if first_update_at_call timing then i else "" |} ]
   else []) ++
  (if nonempty o
   then [ {| speaker := Gemini;
             text := match timing with
                     | EveryCall => o
                     | FirstCall => if nonempty i then "" else o
                     | AtRender => ""
                     end |} ]
   else []).

(** The component when line 99 is reached. *)
Definition transcribed (timing : UpdaterTiming) (m : Msg.LiveServerMessage)
    (s : Component) : Component :=
  let i := currentInputTranscriptionRef (refs s) +:+ input_fragment m in
  let o := currentOutputTranscriptionRef (refs s) +:+ output_fragment m in
  let complete := truthy_flag (Msg.serverContent m ?> Msg.turnComplete) in
  {| hooks :=
       {| ai := ai (hooks s); isSessionActive := isSessionActive (hooks s);
          isConnecting := isConnecting (hooks s); error := error (hooks s);
          transcription :=
            if complete
            then transcription (hooks s) ++ turn_entries timing i o
            else transcription (hooks s) |};
     refs :=
       {| sessionPromiseRef := sessionPromiseRef (refs s);
          streamRef := streamRef (refs s);
          inputAudioContextRef := inputAudioContextRef (refs s);
          outputAudioContextRef := outputAudioContextRef (refs s);
          scriptProcessorRef := scriptProcessorRef (refs s);
          mediaStreamSourceRef := mediaStreamSourceRef (refs s);
          nextStartTimeRef := nextStartTimeRef (refs s);
          audioSourcesRef := audioSourcesRef (refs s);
          currentInputTranscriptionRef := if complete then "" else i;
          currentOutputTranscriptionRef := if complete then "" else o |};
     browser := browser s |}.

(** From [s] to [s'] the segments [new] were started: each at or after the
    cursor of [s], each ending at or before the cursor of [s']. *)
Definition advances (s s' : Component) (new : list Segment) : Prop :=
  started (browser s') = started (browser s) ++ new ∧
  (nextStartTimeRef (refs s) <= nextStartTimeRef (refs s'))%Q ∧
  Forall (fun g => (nextStartTimeRef (refs s) <= seg_start g)%Q ∧
                   (0 <= seg_duration g)%Q ∧
                   (seg_end g <= nextStartTimeRef (refs s'))%Q) new.

(** ** Sample values *)

Definition all_granted : StartEnv :=
  {| getUserMedia := Given 1; newInputContext := 2; newOutputContext := 3;
     connect := Given 4 |}.

Definition microphone_denied : StartEnv :=
  {| getUserMedia := Refused; newInputContext := 2; newOutputContext := 3;
     connect := Given 4 |}.


(** A session that has started and opened. *)
Definition opened_session : Component :=
  run EveryCall [StartClicked; MediaSettled all_granted; Opened 5 6] (mounted true).

Definition message_of (content : Msg.LiveServerContent) : Msg.LiveServerMessage :=
  {| Msg.serverContent := Some content |}.

Definition input_text (t : string) : Msg.LiveServerMessage :=
  message_of {| Msg.modelTurn := None; Msg.turnComplete := None;
                Msg.inputTranscription := Some {| Msg.text := Some t |};
                Msg.outputTranscription := None |}.

Definition output_text (t : string) : Msg.LiveServerMessage :=
  message_of {| Msg.modelTurn := None; Msg.turnComplete := None;
                Msg.inputTranscription := None;
                Msg.outputTranscription := Some {| Msg.text := Some t |} |}.

Definition turn_complete : Msg.LiveServerMessage :=
  message_of {| Msg.modelTurn := None; Msg.turnComplete := Some true;
                Msg.inputTranscription := None; Msg.outputTranscription := None |}.

Definition model_turn (ps : list Msg.Part) : Msg.LiveServerMessage :=
  message_of {| Msg.modelTurn := Some {| Msg.parts := Some ps |};
                Msg.turnComplete := None;
                Msg.inputTranscription := None; Msg.outputTranscription := None |}.

Definition audio_part (base64 : string) : Msg.Part :=
  {| Msg.inlineData := Some {| Msg.data := Some base64 |}; Msg.partText := None |}.

Definition text_part (t : string) : Msg.Part :=
  {| Msg.inlineData := None; Msg.partText := Some t |}.

(** A session in which both sides have spoken. *)
Definition both_spoke : Component :=
  run EveryCall [ MessageArrived 0 (input_text "Hello");
                  MessageArrived 0 (output_text " world") ] opened_session.

(** Two payloads of 2.0 s and 1.5 s that arrive with the clock at 0. *)
Definition two_payloads : list Payload :=
  [ {| arrival := 0; message := model_turn [audio_part "AAAA"]; duration := 2; node := 7 |};
    {| arrival := 0; message := model_turn [audio_part "AAAA"]; duration := 3 # 2; node := 8 |} ].

(** ** What the component renders, lines 160-202 *)

(** The handler the button is given: [isSessionActive ? stopSession : startSession]. *)
Inductive ClickHandler := CallStopSession | CallStartSession.

(** One bubble of the transcript, lines 193-197. *)
Record Row := {
  row_right : bool;      (* [justify-end] and the indigo bubble: the entries of [You] *)
  row_label : string;    (* [entry.speaker], before the colon *)
  row_text : string      (* [entry.text] *)
}.

Record View := {
  onClick : ClickHandler;
  disabled : bool;             (* disabled={isConnecting || !ai} *)
  spinner : bool;              (* isConnecting ? <Spinner /> : the microphone *)
  ping : bool;                 (* isSessionActive && the pinging ring *)
  status : string;             (* the line under the button *)
  key_warning : bool;          (* !ai && "API key not configured..." *)
  error_line : option string;  (* error && the message in red *)
  rows : option (list Row)     (* the bubbles, or "Awaiting conversation..." *)
}.

Definition speaker_name (sp : Speaker) : string :=
  match sp with
  | You => "You"
  | Gemini => "Gemini"
  end.

Definition row_of (e : TranscriptionEntry) : Row :=
  {| row_right := match speaker e with You => true | Gemini => false end;
     row_label := speaker_name (speaker e);
     row_text := text e |}.

Definition view (s : Component) : View :=
  let h := hooks s in
  {| onClick := if isSessionActive h then CallStopSession else CallStartSession;
     disabled := isConnecting h || negb (ai h);
     spinner := isConnecting h;
     ping := isSessionActive h;
     status := if isConnecting h then "Connecting..."
               else if isSessionActive h then "Conversation Active"
               else "Tap to Start";
     key_warning := negb (ai h);
     error_line := if truthy (error h) then error h else None;
     rows := match transcription h with
             | [] => None
             | l => Some (map row_of l)
             end |}.

(** A click on the button.  A disabled button gets no click; [stopSession]
    is called with the click event, which is truthy, as [closePromise]. *)
Definition click (s : Component) : Step :=
  if disabled (view s) then Returned s
  else
    match onClick (view s) with
    | CallStopSession => Returned (stopSession true s)
    | CallStartSession => startSession_begin s
    end.

(** ** The caller: [renderContent] of [App] *)

Module App.

Inductive Feature :=
| chat | image_generation | image_understanding | image_editing
| video_generation | video_understanding | live_conversation | transcription.

Inductive Element :=
| ChatFeature | ImageGeneration | ImageUnderstanding | ImageEditing
| VideoGeneration | VideoUnderstanding | LiveConversation | Transcription
| ApiKeySelector (child : Element).

(** The [switch] on [activeFeature]; its [default] cannot be reached by a
    value of the type [Feature]. *)
Definition renderContent (activeFeature : Feature) : Element :=
  match activeFeature with
  | chat => ChatFeature
  | image_generation => ImageGeneration
  | image_understanding => ImageUnderstanding
  | image_editing => ImageEditing
  | video_generation => ApiKeySelector VideoGeneration
  | video_understanding => VideoUnderstanding
  | live_conversation => LiveConversation
  | transcription => Transcription
  end.

End App.

(** ** More notions used in the statements *)

(** The sources on which [start] was called. *)
Definition started_sources (s : Component) : gset nat :=
  list_to_set (map seg_source (started (browser s))).

(** Every pending source and every stopped source was started before. *)
Definition only_started_sources (s : Component) : Prop :=
  audioSourcesRef (refs s) ⊆ started_sources s ∧
  stoppedSources (browser s) ⊆ started_sources s.


(** A decoded buffer has a duration that is not negative. *)
Definition duration_nonnegative (ev : Event) : bool :=
  match ev with
  | DecodeSettled (Decoded duration) _ => Qle_bool 0 duration
  | _ => true
  end.

(** Every event but the click that starts a session. *)
Definition not_a_start (ev : Event) : bool :=
  match ev with
  | StartClicked => false
  | _ => true
  end.

Definition arrives (cm : Q * Msg.LiveServerMessage) : Event :=
  MessageArrived cm.1 cm.2.

Definition completes_turn (m : Msg.LiveServerMessage) : bool :=
  truthy_flag (Msg.serverContent m ?> Msg.turnComplete).

(** Texts one after the other. *)
Definition concat_text (l : list string) : string := foldr String.append "" l.

(** The shapes on which line 99 reads a property of [undefined]: a model turn
    without [parts], or whose first part has no [inlineData]. *)
Definition first_part_unreadable (m : Msg.LiveServerMessage) : bool :=
  match Msg.serverContent m ?> Msg.modelTurn with
  | None => false
  | Some turn =>
      match Msg.parts turn with
      | None => true
      | Some [] => false
      | Some (p :: _) =>
          match Msg.inlineData p with
          | None => true
          | Some _ => false
          end
      end
  end.

(** The message of content [c] whose model turn has the parts [ps]. *)
Definition with_parts (c : Msg.LiveServerContent) (ps : list Msg.Part)
  : Msg.LiveServerMessage :=
  {| Msg.serverContent :=
       Some {| Msg.modelTurn := Some {| Msg.parts := Some ps |};
               Msg.turnComplete := Msg.turnComplete c;
               Msg.inputTranscription := Msg.inputTranscription c;
               Msg.outputTranscription := Msg.outputTranscription c |} |}.

(** ** The closure of [startSession] and the throw of [decode] *)

(** [startSession] as one render has created it (the [useCallback] of line
    43 with the dependencies of line 132): the guard of line 44 tests the
    hook values [seen] by that render, the assignments go to the component
    as it is.  [startSession_begin s] is the call through the callback of
    the latest render; a call through an older callback tests older
    values. *)
Definition startSession_begin_in (seen : Hooks) (s : Component) : Step :=
  if negb (ai seen) || isConnecting seen || isSessionActive seen then Returned s
  else
    let s := setIsConnecting true s in
    let s := setError None s in
    let s := commitTranscription [] s in
    Suspended s.

(** Lines 81-102 once more, with [decode] told apart from
    [decodeAudioData].  Line 102 evaluates [decode(base64Audio)] before the
    [await]: when [decode] throws, the callback is left there, after line
    101, and never stands at the [await]; when it returns, the callback
    stands at the [await] of [decodeAudioData].  [decode] comes from
    [utils/audioUtils]; [decode_returns] says on which strings it returns.
    [onmessage_sync] and [onmessage_resume] deliver both failures as
    [DecodeFailed], with the same component. *)
Definition onmessage_to_await (decode_returns : string -> bool) (timing : UpdaterTiming)
    (clock : Q) (m : Msg.LiveServerMessage) (s : Component) : Step :=
  let s := accumulate m s in
  let w := if truthy_flag (Msg.serverContent m ?> Msg.turnComplete)
           then finalize timing (s, [])
           else (s, []) in
  match base64Audio m with
  | Throw e => Threw e (render w)
  | Normal audio =>
      if truthy audio && has_output_context w.1
      then
        (* nextStartTimeRef.current = Math.max(nextStartTimeRef.current, currentTime) *)
        let s := set_nextStartTimeRef (Qmax (nextStartTimeRef (refs w.1)) clock) w.1 in
        (* decode(base64Audio), the argument of the call that is awaited *)
        if decode_returns (text_of audio)
        then Suspended (render (s, w.2))
        else Threw DecodeError (render (s, w.2))
      else Returned (render w)
  end.

(** An event that does not move the playback cursor away from 0: any event
    but a decoding that settles with a buffer and a message with an audio
    payload. *)
Definition leaves_cursor (ev : Event) : bool :=
  match ev with
  | DecodeSettled (Decoded _) _ => false
  | MessageArrived _ m => negb (carries_audio m)
  | _ => true
  end.

(** [part] occurs in [whole]. *)
Definition included (part whole : string) : Prop :=
  ∃ before after, whole = before +:+ part +:+ after.

(** The fragments that the two accumulators held at the stop are in the
    first entry of the transcript. *)
Definition carried_into_first_entry (i o : string) (log : list TranscriptionEntry) : Prop :=
  ∃ e rest, log = e :: rest ∧ included i (text e) ∧ included o (text e).

(** No entry of the transcript shows the fragment. *)
Definition shown_nowhere (fragment : string) (log : list TranscriptionEntry) : Prop :=
  Forall (fun e => ¬ included fragment (text e)) log.

(** Two starts that are answered one after the other. *)
Definition first_grant : StartEnv :=
  {| getUserMedia := Given 11; newInputContext := 12; newOutputContext := 13;
     connect := Given 14 |}.

Definition second_grant : StartEnv :=
  {| getUserMedia := Given 21; newInputContext := 22; newOutputContext := 23;
     connect := Given 24 |}.

(** On an active session: the user stops and starts again at once; while
    [getUserMedia] is awaited the old transport reports its close; the user
    clicks once more; then both requests for the microphone are granted and
    both transports open. *)
Definition overlapping_starts : list Event :=
  [ StopCalled true; StartClicked; Closed; StartClicked;
    MediaSettled first_grant; MediaSettled second_grant;
    Opened 15 16; Opened 25 26 ].

(** The same session restarted once, with a turn completion as its first
    message. *)
Definition restarted_turn (timing : UpdaterTiming) : list TranscriptionEntry :=
  transcription (hooks (state_of (onmessage_sync timing 0 turn_complete
    (onopen 5 6 (state_of (startSession all_granted (stopSession true both_spoke))))))).

(** * Properties *)

(** Only the projections of the three records get computed. *)
Ltac fields :=
  cbn [ hooks refs browser
        ai isSessionActive isConnecting error transcription
        sessionPromiseRef streamRef inputAudioContextRef outputAudioContextRef
        scriptProcessorRef mediaStreamSourceRef nextStartTimeRef audioSourcesRef
        currentInputTranscriptionRef currentOutputTranscriptionRef
        liveStreams openContexts connectedNodes closeRequested started
        stoppedSources console ] in *.

(** The assignments, opened. *)
Ltac assignments :=
  unfold setIsSessionActive, setIsConnecting, setError, commitTranscription,
    set_sessionPromiseRef, set_streamRef, set_inputAudioContextRef,
    set_outputAudioContextRef, set_scriptProcessorRef, set_mediaStreamSourceRef,
    set_nextStartTimeRef, set_audioSourcesRef, set_currentInputTranscriptionRef,
    set_currentOutputTranscriptionRef, set_liveStreams, set_openContexts,
    set_connectedNodes, set_closeRequested, set_started, set_stoppedSources,
    set_console, on_hooks, on_refs, on_browser in *;
  fields.

(** ** [stopSession] in one piece *)

Lemma stopSession_unfold (closePromise : bool) (s : Component) :
  stopSession closePromise s =
  {| hooks :=
       {| ai := ai (hooks s); isSessionActive := false; isConnecting := false;
          error := error (hooks s); transcription := transcription (hooks s) |};
     refs :=
       {| sessionPromiseRef := sessionPromiseRef (refs s);
          streamRef := None;
          inputAudioContextRef := inputAudioContextRef (refs s);
          outputAudioContextRef := outputAudioContextRef (refs s);
          scriptProcessorRef := None;
          mediaStreamSourceRef := None;
          nextStartTimeRef := 0;
          audioSourcesRef := ∅;
          currentInputTranscriptionRef := currentInputTranscriptionRef (refs s);
          currentOutputTranscriptionRef := currentOutputTranscriptionRef (refs s) |};
     browser :=
       {| liveStreams := liveStreams (browser s) ∖ handle_set (streamRef (refs s));
          openContexts :=
            openContexts (browser s) ∖ handle_set (inputAudioContextRef (refs s))
                                     ∖ handle_set (outputAudioContextRef (refs s));
          connectedNodes :=
            connectedNodes (browser s) ∖ handle_set (scriptProcessorRef (refs s))
                                       ∖ handle_set (mediaStreamSourceRef (refs s));
          closeRequested :=
            if closePromise
            then closeRequested (browser s) ∪ handle_set (sessionPromiseRef (refs s))
            else closeRequested (browser s);
          started := started (browser s);
          stoppedSources := stoppedSources (browser s) ∪ audioSourcesRef (refs s);
          console := console (browser s) |} |}.
Proof. destruct s as [[] [] []], closePromise; reflexivity. Qed.

Lemma stopSession_twice (again closePromise : bool) (s : Component) :
  (again = true -> closePromise = true) ->
  stopSession again (stopSession closePromise s) = stopSession closePromise s.
Proof.
  intros Himp. rewrite !stopSession_unfold. fields.
  f_equal. f_equal; try set_solver.
  destruct again, closePromise; set_solver.
Qed.

Lemma stopSession_torn_down (closePromise : bool) (s : Component) :
  torn_down s (stopSession closePromise s).
Proof.
  unfold torn_down, idle. rewrite stopSession_unfold. fields.
  repeat split; set_solver.
Qed.

(** ** Stopping *)

(** C2: stop is idempotent.  A second [stopSession] with the same argument
    leaves the component as the first one left it, and so does the [onclose]
    that the transport sends after a stop; the second call runs to its end,
    it does not throw. *)
Theorem stop_is_idempotent (timing : UpdaterTiming) (closePromise : bool) (s : Component) :
  stopSession closePromise (stopSession closePromise s) = stopSession closePromise s ∧
  onclose (stopSession closePromise s) = stopSession closePromise s ∧
  dispatch timing (StopCalled closePromise) (stopSession closePromise s)
    = Returned (stopSession closePromise s).
Proof.
  split; [| split].
  - apply stopSession_twice. auto.
  - apply stopSession_twice. discriminate.
  - cbn [dispatch]. f_equal. apply stopSession_twice. auto.
Qed.

(** C3: after a stop, whoever asked for it (the user through [stopSession],
    the transport through [onclose], an error through [onerror]), no segment
    is pending, the cursor is back at its value at mount, the capture nodes
    and the microphone are released and the session is idle. *)
Theorem stop_tears_down (closePromise : bool) (s : Component) :
  torn_down s (stopSession closePromise s) ∧
  torn_down s (onclose s) ∧
  torn_down s (onerror s).
Proof.
  split; [| split].
  - apply stopSession_torn_down.
  - apply stopSession_torn_down.
  - unfold onerror. cbv zeta.
    pose proof (stopSession_torn_down false
      (setError (Some "A session error occurred. The connection may have been lost.")
         (set_console (console (browser s) ++ ["Session error:"]) s))) as H.
    unfold torn_down in *. assignments. exact H.
Qed.

(** ** Strings as conditions *)

Lemma append_empty_r (a : string) : a +:+ "" = a.
Proof.
  induction a as [| c a IH]; [reflexivity |].
  change (String c (a +:+ "") = String c a). f_equal. exact IH.
Qed.

Lemma nonempty_append (a b : string) : nonempty a = true -> nonempty (a +:+ b) = true.
Proof. destruct a; [discriminate | reflexivity]. Qed.

Lemma falsy_text (o : option string) : truthy o = false -> text_of o = "".
Proof. destruct o as [[| c t] |]; [reflexivity | discriminate | reflexivity]. Qed.

(** ** [onmessage] up to line 99, in one piece *)

Lemma accumulate_unfold (m : Msg.LiveServerMessage) (s : Component) :
  accumulate m s =
  {| hooks := hooks s;
     refs :=
       {| sessionPromiseRef := sessionPromiseRef (refs s);
          streamRef := streamRef (refs s);
          inputAudioContextRef := inputAudioContextRef (refs s);
          outputAudioContextRef := outputAudioContextRef (refs s);
          scriptProcessorRef := scriptProcessorRef (refs s);
          mediaStreamSourceRef := mediaStreamSourceRef (refs s);
          nextStartTimeRef := nextStartTimeRef (refs s);
          audioSourcesRef := audioSourcesRef (refs s);
          currentInputTranscriptionRef :=
            currentInputTranscriptionRef (refs s) +:+ input_fragment m;
          currentOutputTranscriptionRef :=
            currentOutputTranscriptionRef (refs s) +:+ output_fragment m |};
     browser := browser s |}.
Proof.
  destruct s as [h [] b]. unfold accumulate, input_fragment, output_fragment.
  destruct (truthy (Msg.serverContent m ?> Msg.outputTranscription ?> Msg.text)) eqn:Ho;
    destruct (truthy (Msg.serverContent m ?> Msg.inputTranscription ?> Msg.text)) eqn:Hi;
    assignments;
    rewrite ?(falsy_text _ Ho), ?(falsy_text _ Hi), ?append_empty_r; reflexivity.
Qed.

Lemma onmessage_sync_unfold (timing : UpdaterTiming) (clock : Q)
    (m : Msg.LiveServerMessage) (s : Component) :
  onmessage_sync timing clock m s =
  match base64Audio m with
  | Throw e => Threw e (transcribed timing m s)
  | Normal audio =>
      if truthy audio && has_output_context s
      then Suspended (set_nextStartTimeRef (Qmax (nextStartTimeRef (refs s)) clock)
                        (transcribed timing m s))
      else Returned (transcribed timing m s)
  end.
Proof.
  unfold onmessage_sync. rewrite accumulate_unfold.
  unfold transcribed, turn_entries, has_output_context.
  destruct s as [[] [] []]. fields.
  set (i := currentInputTranscriptionRef0 +:+ input_fragment m).
  set (o := currentOutputTranscriptionRef0 +:+ output_fragment m).
  destruct (truthy_flag (Msg.serverContent m ?> Msg.turnComplete)).
  - unfold finalize. cbn [fst snd]. fields.
    destruct i as [| ci i'], o as [| co o'], timing;
      cbn -[Qmax]; destruct (base64Audio m) as [audio |];
      try destruct (truthy audio); try destruct outputAudioContextRef0;
      cbn -[Qmax]; rewrite ?app_nil_r, <- ?app_assoc; reflexivity.
  - destruct (base64Audio m) as [audio |];
      try destruct (truthy audio); try destruct outputAudioContextRef0;
      cbn -[Qmax]; reflexivity.
Qed.
Lemma run_cons (timing : UpdaterTiming) (ev : Event) (evs : list Event) (s : Component) :
  run timing (ev :: evs) s = run timing evs (state_of (dispatch timing ev s)).
Proof. reflexivity. Qed.

Lemma state_of_onmessage_sync (timing : UpdaterTiming) (clock : Q)
    (m : Msg.LiveServerMessage) (s : Component) :
  hooks (state_of (onmessage_sync timing clock m s)) = hooks (transcribed timing m s) ∧
  currentInputTranscriptionRef (refs (state_of (onmessage_sync timing clock m s)))
    = currentInputTranscriptionRef (refs (transcribed timing m s)) ∧
  currentOutputTranscriptionRef (refs (state_of (onmessage_sync timing clock m s)))
    = currentOutputTranscriptionRef (refs (transcribed timing m s)).
Proof.
  rewrite onmessage_sync_unfold.
  destruct (base64Audio m) as [audio | e]; [| repeat split].
  destruct (truthy audio && has_output_context s); repeat split.
Qed.

(** ** Starting *)

Lemma startSession_begin_unfold (s : Component) :
  start_refused s = false ->
  startSession_begin s =
  Suspended
    {| hooks := {| ai := ai (hooks s); isSessionActive := isSessionActive (hooks s);
                   isConnecting := true; error := None; transcription := [] |};
       refs := refs s;
       browser := browser s |}.
Proof. intros H. unfold startSession_begin. rewrite H. reflexivity. Qed.

Lemma startSession_resume_hooks (env : StartEnv) (s : Component) :
  hooks (state_of (startSession_resume env s)) =
  match getUserMedia env, connect env with
  | Given _, Given _ => hooks s
  | _, _ =>
      {| ai := ai (hooks s); isSessionActive := isSessionActive (hooks s);
         isConnecting := false;
         error := Some "Could not get microphone permissions. Please allow access and try again.";
         transcription := transcription (hooks s) |}
  end.
Proof.
  destruct s as [[] [] []], env as [[stream |] ic oc [promise |]]; reflexivity.
Qed.

Lemma startSession_resume_unfold (env : StartEnv) (s : Component) :
  startSession_resume env s =
  match getUserMedia env with
  | Refused => Returned (start_catch s)
  | Given stream =>
      match connect env with
      | Refused => Returned (start_catch (acquired stream env s))
      | Given promise => Returned (set_sessionPromiseRef (Some promise) (acquired stream env s))
      end
  end.
Proof.
  destruct s as [[] [] []], env as [[stream |] ic oc [promise |]]; reflexivity.
Qed.

(** [onerror] on a component whose cells name every live stream and every
    open context: an error is shown, the session is idle, nothing is held. *)
Lemma onerror_cleaned (s : Component) :
  liveStreams (browser s) ⊆ handle_set (streamRef (refs s)) ->
  openContexts (browser s) ⊆
    handle_set (inputAudioContextRef (refs s)) ∪ handle_set (outputAudioContextRef (refs s)) ->
  failed_start_cleaned (onerror s).
Proof.
  intros Hl Hc. unfold onerror. cbv zeta. rewrite stopSession_unfold.
  unfold failed_start_cleaned, idle, nothing_held, setError, set_console, on_hooks, on_browser.
  cbn [hooks refs browser isSessionActive isConnecting error streamRef
       inputAudioContextRef outputAudioContextRef scriptProcessorRef
       mediaStreamSourceRef liveStreams openContexts negb andb].
  split; [eexists; reflexivity |]. split; [reflexivity |].
  repeat split; set_solver.
Qed.

(** The transport reports its failure through [onerror]: the stop sequence
    runs and releases what the start had acquired. *)
Lemma transport_error_cleaned (env : StartEnv) (stream promise : nat) (s : Component) :
  start_refused s = false ->
  getUserMedia env = Given stream ->
  connect env = Given promise ->
  nothing_held s ->
  failed_start_cleaned (onerror (state_of (startSession env s))).
Proof.
  intros Hguard Hgum Hconn (Hs & Hl & Hc & Hp & Hm).
  unfold startSession. rewrite (startSession_begin_unfold s Hguard).
  rewrite startSession_resume_unfold, Hgum, Hconn. cbn [state_of].
  apply onerror_cleaned;
    unfold acquired, set_sessionPromiseRef, on_refs;
    cbn [hooks refs browser streamRef inputAudioContextRef outputAudioContextRef
         liveStreams openContexts];
    rewrite ?Hl, ?Hc; set_solver.
Qed.

(** The guard of line 44, on the values of the latest render:
    [startSession] called while the session is connecting or active returns
    there; the component is unchanged and the call does not reach
    [getUserMedia] or [connect]. *)
Theorem start_while_busy_is_noop (timing : UpdaterTiming) (env : StartEnv) (s : Component) :
  isConnecting (hooks s) || isSessionActive (hooks s) = true ->
  startSession_begin s = Returned s ∧
  startSession env s = Returned s ∧
  dispatch timing StartClicked s = Returned s.
Proof.
  intros Hbusy.
  assert (Hguard : start_refused s = true).
  { unfold start_refused. destruct (ai (hooks s)); cbn; [exact Hbusy | reflexivity]. }
  assert (Hbegin : startSession_begin s = Returned s).
  { unfold startSession_begin. rewrite Hguard. reflexivity. }
  repeat split.
  - exact Hbegin.
  - unfold startSession. rewrite Hbegin. reflexivity.
  - exact Hbegin.
Qed.

Lemma start_while_busy_is_noop_witness :
  startSession all_granted opened_session = Returned opened_session.
Proof.
  apply (start_while_busy_is_noop EveryCall all_granted opened_session).
  vm_compute. reflexivity.
Defined.

Lemma startSession_begin_latest (s : Component) :
  startSession_begin s = startSession_begin_in (hooks s) s.
Proof. reflexivity. Qed.

(** C5 fails: the guard does not keep the sessions apart.
    - A start that awaits [getUserMedia] is forgotten by the flags as soon
      as [stopSession] runs (here through the [onclose] of the transport
      stopped just before): the next click passes the guard, both starts
      acquire a microphone stream, two contexts and a transport, and both
      [onopen] connect capture nodes.  The cells name the second session
      only, so a stop releases the second and leaves the stream, the
      contexts and the capture nodes of the first, whose transport is never
      asked to close.
    - A second call through the callback of the same render passes the
      guard as well, although the first call has set [isConnecting]: the
      guard tests the values that render has seen. *)
Theorem overlapping_starts_make_two_sessions :
  (∃ s', dispatch EveryCall StartClicked
           (run EveryCall [StopCalled true; StartClicked; Closed] opened_session)
         = Suspended s') ∧
  (let s := run EveryCall overlapping_starts opened_session in
   (11 ∈ liveStreams (browser s) ∧ 21 ∈ liveStreams (browser s) ∧
    12 ∈ openContexts (browser s) ∧ 13 ∈ openContexts (browser s) ∧
    22 ∈ openContexts (browser s) ∧ 23 ∈ openContexts (browser s) ∧
    15 ∈ connectedNodes (browser s) ∧ 16 ∈ connectedNodes (browser s) ∧
    25 ∈ connectedNodes (browser s) ∧ 26 ∈ connectedNodes (browser s)) ∧
   (streamRef (refs s) = Some 21 ∧ sessionPromiseRef (refs s) = Some 24 ∧
    isSessionActive (hooks s) = true) ∧
   (idle (stopSession true s) = true ∧
    11 ∈ liveStreams (browser (stopSession true s)) ∧
    12 ∈ openContexts (browser (stopSession true s)) ∧
    13 ∈ openContexts (browser (stopSession true s)) ∧
    15 ∈ connectedNodes (browser (stopSession true s)) ∧
    16 ∈ connectedNodes (browser (stopSession true s)) ∧
    14 ∉ closeRequested (browser (stopSession true s)))) ∧
  (∃ s1 s2, startSession_begin (mounted true) = Suspended s1 ∧
            isConnecting (hooks s1) = true ∧
            startSession_begin_in (hooks (mounted true)) s1 = Suspended s2).
Proof.
  split; [| split].
  - vm_compute. eexists. reflexivity.
  - cbv zeta. split; [| split].
    + repeat split; apply (bool_decide_unpack _); vm_compute; exact I.
    + repeat split.
    + split; [reflexivity |].
      repeat split; apply (bool_decide_unpack _); vm_compute; exact I.
  - vm_compute. eexists. eexists. repeat split.
Qed.

(** C10: a call of [startSession] that passes the guard of line 44 empties
    the transcript and clears the error indicator before it asks for the
    microphone: at the [await] no cell and no browser object has changed.
    When the call ends the transcript is still empty, and the error
    indicator is clear or holds the message of this very start. *)
Theorem start_resets_transcript_and_error (env : StartEnv) (s : Component) :
  start_refused s = false ->
  ∃ s', startSession_begin s = Suspended s' ∧
        transcription (hooks s') = [] ∧
        error (hooks s') = None ∧
        refs s' = refs s ∧
        browser s' = browser s ∧
        transcription (hooks (state_of (startSession env s))) = [] ∧
        error (hooks (state_of (startSession env s))) =
          match getUserMedia env, connect env with
          | Given _, Given _ => None
          | _, _ => Some "Could not get microphone permissions. Please allow access and try again."
          end.
Proof.
  intros Hguard. eexists. split; [apply startSession_begin_unfold, Hguard |].
  unfold startSession. rewrite (startSession_begin_unfold s Hguard).
  rewrite startSession_resume_hooks. fields.
  repeat split; destruct (getUserMedia env), (connect env); reflexivity.
Qed.

Lemma start_resets_transcript_and_error_witness :
  transcription (hooks (state_of
    (startSession all_granted (stopSession true
       (state_of (onmessage_sync EveryCall 0 turn_complete both_spoke)))))) = [].
Proof.
  destruct (start_resets_transcript_and_error all_granted
              (stopSession true (state_of (onmessage_sync EveryCall 0 turn_complete both_spoke)))
              eq_refl) as (s' & _ & _ & _ & _ & _ & H & _).
  exact H.
Defined.

(** ** A start that fails *)

(** The microphone is refused: the [catch] block shows its message, the
    session is idle again and nothing has been acquired. *)
Lemma refused_microphone_cleaned (env : StartEnv) (s : Component) :
  start_refused s = false ->
  getUserMedia env = Refused ->
  nothing_held s ->
  failed_start_cleaned (state_of (startSession env s)).
Proof.
  intros Hguard Hgum Hheld.
  unfold startSession. rewrite (startSession_begin_unfold s Hguard).
  unfold startSession_resume. rewrite Hgum. cbn [state_of].
  unfold start_refused in Hguard. unfold failed_start_cleaned, idle, nothing_held in *.
  unfold start_catch. assignments.
  destruct (isSessionActive (hooks s)); [destruct (ai (hooks s)), (isConnecting (hooks s)); discriminate |].
  repeat split; try tauto. eexists; reflexivity.
Qed.

Example microphone_denied_at_mount :
  failed_start_cleaned (state_of (startSession microphone_denied (mounted true))).
Proof.
  apply refused_microphone_cleaned; [reflexivity | reflexivity |].
  repeat split.
Qed.


(** ** Turn completion *)

(** C4: a message with [turnComplete], the accumulators taken when line 88
    is reached (the fragments of the message itself are in them).  Local
    alone: one entry of speaker [You] is appended; remote alone: one entry of
    speaker [Gemini]; both: two entries, [You] before [Gemini].  Afterwards
    both accumulators are empty.  This holds whenever React calls the state
    updaters. *)
Theorem turn_complete_appends (timing : UpdaterTiming) (clock : Q)
    (m : Msg.LiveServerMessage) (s : Component) :
  truthy_flag (Msg.serverContent m ?> Msg.turnComplete) = true ->
  let i := currentInputTranscriptionRef (refs (accumulate m s)) in
  let o := currentOutputTranscriptionRef (refs (accumulate m s)) in
  let s' := state_of (onmessage_sync timing clock m s) in
  let old := transcription (hooks s) in
  let new := transcription (hooks s') in
  (nonempty i = true -> nonempty o = false ->
     ∃ t, new = old ++ [ {| speaker := You; text := t |} ]) ∧
  (nonempty i = false -> nonempty o = true ->
     ∃ t, new = old ++ [ {| speaker := Gemini; text := t |} ]) ∧
  (nonempty i = true -> nonempty o = true ->
     ∃ t u, new = old ++ [ {| speaker := You; text := t |};
                           {| speaker := Gemini; text := u |} ]) ∧
  currentInputTranscriptionRef (refs s') = "" ∧
  currentOutputTranscriptionRef (refs s') = "".
Proof.
  intros Hcomplete i o s' old new.
  destruct (state_of_onmessage_sync timing clock m s) as (Hh & Hi & Ho).
  subst new s' old. rewrite Hh, Hi, Ho. subst i o.
  rewrite accumulate_unfold. unfold transcribed, turn_entries. fields.
  rewrite Hcomplete.
  repeat split.
  - intros -> ->. eexists. reflexivity.
  - intros -> ->. eexists. reflexivity.
  - intros -> ->. eexists. eexists. reflexivity.
Qed.

Lemma turn_complete_appends_witness :
  ∃ t u, transcription (hooks (state_of (onmessage_sync FirstCall 0 turn_complete both_spoke)))
         = transcription (hooks both_spoke) ++
             [ {| speaker := You; text := t |}; {| speaker := Gemini; text := u |} ].
Proof.
  destruct (turn_complete_appends FirstCall 0 turn_complete both_spoke) as (_ & _ & H & _).
  - reflexivity.
  - apply H; reflexivity.
Defined.

(** The scenario of the specification: "Hello" from the user, " world" from
    the model, then the end of the turn.  Both entries are appended in every
    case; their texts are those of the accumulators when the updaters run
    inside the setter, and they are read after the cells were emptied
    otherwise. *)
Example hello_world_turn :
  let log timing :=
    transcription (hooks (state_of (onmessage_sync timing 0 turn_complete both_spoke))) in
  log EveryCall = [ {| speaker := You; text := "Hello" |};
                    {| speaker := Gemini; text := " world" |} ] ∧
  log FirstCall = [ {| speaker := You; text := "Hello" |};
                    {| speaker := Gemini; text := "" |} ] ∧
  log AtRender = [ {| speaker := You; text := "" |};
                   {| speaker := Gemini; text := "" |} ].
Proof. repeat split. Qed.

(** C9: a message whose model turn begins with a part that has no
    [inlineData] (a part of text, say): line 99 reads [.data] of [undefined]
    and the callback is left by a [TypeError], whatever the component and
    whatever the decoder would have answered. *)
Theorem part_without_inline_data_throws (timing : UpdaterTiming) (clock : Q)
    (m : Msg.LiveServerMessage) (content : Msg.LiveServerContent)
    (turn : Msg.Content) (p : Msg.Part) (ps : list Msg.Part)
    (dec : DecodeResult) (source : nat) (s : Component) :
  Msg.serverContent m = Some content ->
  Msg.modelTurn content = Some turn ->
  Msg.parts turn = Some (p :: ps) ->
  Msg.inlineData p = None ->
  base64Audio m = Throw TypeError ∧
  ∃ s', onmessage_sync timing clock m s = Threw TypeError s' ∧
        onmessage timing clock m dec source s = Threw TypeError s'.
Proof.
  intros Hc Ht Hp Hd.
  assert (Hthrow : base64Audio m = Throw TypeError).
  { unfold base64Audio. rewrite Hc. cbn [chain]. rewrite Ht, Hp, Hd. reflexivity. }
  split; [exact Hthrow |].
  exists (transcribed timing m s).
  unfold onmessage. rewrite onmessage_sync_unfold, Hthrow. split; reflexivity.
Qed.

Lemma part_without_inline_data_throws_witness :
  ∃ s', onmessage EveryCall 0 (model_turn [text_part "Hello"]) (Decoded 1) 7 opened_session
        = Threw TypeError s'.
Proof.
  destruct (part_without_inline_data_throws EveryCall 0 (model_turn [text_part "Hello"])
              {| Msg.modelTurn := Some {| Msg.parts := Some [text_part "Hello"] |};
                 Msg.turnComplete := None;
                 Msg.inputTranscription := None; Msg.outputTranscription := None |}
              {| Msg.parts := Some [text_part "Hello"] |}
              (text_part "Hello") [] (Decoded 1) 7 opened_session
              eq_refl eq_refl eq_refl eq_refl) as (_ & s' & _ & H).
  exists s'. exact H.
Defined.

(** ** A decode failure *)

(** C7, as the specification words it, fails: the session is open, a message
    with an audio payload arrives and the decoder fails.  The callback is
    left by the decode error and the console is as before, so the failure is
    neither logged nor kept inside the callback. *)
Lemma decode_failure_not_contained :
  (∃ s', onmessage EveryCall 0 (model_turn [audio_part "AAAA"]) DecodeFailed 7 opened_session
           = Threw DecodeError s' ∧
         console (browser s') = console (browser opened_session)) ∧
  ¬ decode_failure_contained opened_session
      (onmessage EveryCall 0 (model_turn [audio_part "AAAA"]) DecodeFailed 7 opened_session).
Proof.
  split.
  - vm_compute. eexists. split; reflexivity.
  - intros (_ & Hlogged & _). vm_compute in Hlogged. lia.
Qed.

(** C7, amended: when the decoding of an inbound payload fails, the callback
    is left by the decode error (its promise is rejected) and logs nothing.
    The payload is dropped: no segment is started, the pending set is as
    before, and of the cursor only line 101 has run.  Flags, error indicator
    and handles of the session are as before. *)
Theorem decode_failure_rejects (timing : UpdaterTiming) (clock : Q)
    (m : Msg.LiveServerMessage) (source : nat) (s : Component) :
  carries_audio m = true ->
  has_output_context s = true ->
  ∃ s', onmessage_sync timing clock m s = Suspended s' ∧
        onmessage timing clock m DecodeFailed source s = Threw DecodeError s' ∧
        browser s' = browser s ∧
        audioSourcesRef (refs s') = audioSourcesRef (refs s) ∧
        nextStartTimeRef (refs s') = Qmax (nextStartTimeRef (refs s)) clock ∧
        isSessionActive (hooks s') = isSessionActive (hooks s) ∧
        isConnecting (hooks s') = isConnecting (hooks s) ∧
        error (hooks s') = error (hooks s) ∧
        streamRef (refs s') = streamRef (refs s) ∧
        sessionPromiseRef (refs s') = sessionPromiseRef (refs s) ∧
        outputAudioContextRef (refs s') = outputAudioContextRef (refs s).
Proof.
  intros Haudio Hctx. unfold carries_audio in Haudio.
  eexists. unfold onmessage. rewrite onmessage_sync_unfold.
  destruct (base64Audio m) as [audio | e]; [| discriminate Haudio].
  rewrite Haudio, Hctx. cbn [andb onmessage_resume].
  repeat split.
Qed.

Lemma decode_failure_rejects_witness :
  ∃ s', onmessage EveryCall 0 (model_turn [audio_part "AAAA"]) DecodeFailed 7 opened_session
        = Threw DecodeError s' ∧ browser s' = browser opened_session.
Proof.
  destruct (decode_failure_rejects EveryCall 0 (model_turn [audio_part "AAAA"]) 7
              opened_session eq_refl eq_refl) as (s' & _ & H & Hb & _).
  exists s'. split; [exact H | exact Hb].
Defined.

(** ** The accumulators across a stop and a start *)

Lemma restart_frame (closePromise : bool) (env : StartEnv) (source processor : nat)
    (s : Component) :
  let restarted := onopen source processor
                     (state_of (startSession env (stopSession closePromise s))) in
  currentInputTranscriptionRef (refs restarted) = currentInputTranscriptionRef (refs s) ∧
  currentOutputTranscriptionRef (refs restarted) = currentOutputTranscriptionRef (refs s) ∧
  (ai (hooks s) = true -> transcription (hooks restarted) = []).
Proof.
  destruct s as [[key ? ? ? ?] [? ? [inctx |] ? ? ? ? ? ? ?] []],
    env as [[stream |] ic oc [promise |]], key, closePromise;
    repeat split; intros Hkey; first [discriminate Hkey | reflexivity].
Qed.

Lemma append_assoc (a b c : string) : (a +:+ b) +:+ c = a +:+ (b +:+ c).
Proof.
  induction a as [| x a IH]; [reflexivity |].
  change (String x ((a +:+ b) +:+ c) = String x (a +:+ (b +:+ c))). f_equal. exact IH.
Qed.

(** Messages that do not complete a turn only add to the accumulators. *)
Lemma fragments_accumulate (timing : UpdaterTiming) (before : list (Q * Msg.LiveServerMessage)) :
  forallb (fun cm => negb (truthy_flag (Msg.serverContent cm.2 ?> Msg.turnComplete))) before
    = true ->
  ∀ s, let s' := run timing (map (fun cm => MessageArrived cm.1 cm.2) before) s in
       transcription (hooks s') = transcription (hooks s) ∧
       (∃ more, currentInputTranscriptionRef (refs s')
                  = currentInputTranscriptionRef (refs s) +:+ more) ∧
       (∃ more, currentOutputTranscriptionRef (refs s')
                  = currentOutputTranscriptionRef (refs s) +:+ more).
Proof.
  induction before as [| [clock m] before IH]; intros Hall s.
  - cbn. split; [reflexivity |].
    split; exists ""; rewrite append_empty_r; reflexivity.
  - cbn [forallb] in Hall. apply andb_true_iff in Hall as [Hm Hall].
    cbn [fst snd] in Hm. apply negb_true_iff in Hm.
    cbn [map fst snd]. rewrite run_cons. cbn [dispatch].
    destruct (IH Hall (state_of (onmessage_sync timing clock m s)))
      as (Hlog & (more_i & Hi) & (more_o & Ho)).
    destruct (state_of_onmessage_sync timing clock m s) as (Hh & Hi1 & Ho1).
    cbv zeta. rewrite Hlog, Hi, Ho, Hh, Hi1, Ho1.
    unfold transcribed. cbn [hooks refs transcription currentInputTranscriptionRef
                             currentOutputTranscriptionRef].
    rewrite Hm. split; [reflexivity |].
    split; eexists; rewrite append_assoc; reflexivity.
Qed.

Lemma length_append (a b : string) :
  String.length (a +:+ b) = String.length a + String.length b.
Proof.
  induction a as [| x a IH]; [reflexivity |].
  change (S (String.length (a +:+ b)) = S (String.length a + String.length b)).
  f_equal. exact IH.
Qed.

Lemma included_length (part whole : string) :
  included part whole -> String.length part ≤ String.length whole.
Proof. intros (b & a & ->). rewrite !length_append. lia. Qed.

(** C8, as it is worded, fails.  Both sides have spoken ("Hello", " world")
    when the session is stopped and started again, and the first message of
    the new session completes the turn.  When React runs the updaters inside
    the setter the first entry is that of [You] with the text "Hello": the
    fragment of the remote side is not in it, it goes to the second entry.
    When React runs them at the next render, both entries have an empty
    text: no entry shows either fragment. *)
Lemma carried_fragments_not_in_first_entry :
  (restarted_turn EveryCall = [ {| speaker := You; text := "Hello" |};
                                {| speaker := Gemini; text := " world" |} ] ∧
   ¬ carried_into_first_entry "Hello" " world" (restarted_turn EveryCall)) ∧
  (restarted_turn AtRender = [ {| speaker := You; text := "" |};
                               {| speaker := Gemini; text := "" |} ] ∧
   ¬ carried_into_first_entry "Hello" " world" (restarted_turn AtRender) ∧
   shown_nowhere "Hello" (restarted_turn AtRender) ∧
   shown_nowhere " world" (restarted_turn AtRender)).
Proof.
  split; (split; [reflexivity |]).
  - intros (e & rest & Hlog & _ & Ho).
    change (restarted_turn EveryCall)
      with [ {| speaker := You; text := "Hello" |};
             {| speaker := Gemini; text := " world" |} ] in Hlog.
    injection Hlog as <- _. apply included_length in Ho. cbn in Ho. lia.
  - change (restarted_turn AtRender)
      with [ {| speaker := You; text := "" |}; {| speaker := Gemini; text := "" |} ].
    split; [| split].
    + intros (e & rest & Hlog & Hi & _).
      injection Hlog as <- _. apply included_length in Hi. cbn in Hi. lia.
    + repeat constructor; intros H; apply included_length in H; cbn in H; lia.
    + repeat constructor; intros H; apply included_length in H; cbn in H; lia.
Qed.

(** C8, amended: [stopSession] leaves both accumulators as they are, and so
    does the start that follows, up to [onopen].  So, after any messages
    that do not complete a turn, at the first turn completion of the new
    session each accumulator still begins with the fragments it held at the
    stop, and the completion appends to the emptied transcript one entry for
    each accumulator that carried fragments, the entry of [You] first, the
    entry of [Gemini] last with at most the entry of [You] before it, and
    empties both accumulators.  This holds whenever React runs the updaters
    of lines 90 and 94; what text they find in the cells is not part of the
    statement. *)
Theorem fragments_reach_next_turn (timing : UpdaterTiming) (closePromise : bool)
    (env : StartEnv) (source processor : nat)
    (before : list (Q * Msg.LiveServerMessage)) (clock : Q)
    (m : Msg.LiveServerMessage) (s : Component) :
  let stopped := stopSession closePromise s in
  let restarted := onopen source processor (state_of (startSession env stopped)) in
  let later := run timing (map (fun cm => MessageArrived cm.1 cm.2) before) restarted in
  let completed := state_of (onmessage_sync timing clock m later) in
  let i := currentInputTranscriptionRef (refs s) in
  let o := currentOutputTranscriptionRef (refs s) in
  (currentInputTranscriptionRef (refs stopped) = i ∧
   currentOutputTranscriptionRef (refs stopped) = o) ∧
  (currentInputTranscriptionRef (refs restarted) = i ∧
   currentOutputTranscriptionRef (refs restarted) = o) ∧
  (ai (hooks s) = true ->
   forallb (fun cm => negb (truthy_flag (Msg.serverContent cm.2 ?> Msg.turnComplete))) before
     = true ->
   truthy_flag (Msg.serverContent m ?> Msg.turnComplete) = true ->
   (∃ more_i more_o,
      currentInputTranscriptionRef (refs (accumulate m later)) = i +:+ more_i ∧
      currentOutputTranscriptionRef (refs (accumulate m later)) = o +:+ more_o) ∧
   (nonempty i = true ->
      ∃ t rest, transcription (hooks completed) = {| speaker := You; text := t |} :: rest) ∧
   (nonempty o = true ->
      ∃ t first,
        transcription (hooks completed) = first ++ [ {| speaker := Gemini; text := t |} ] ∧
        (first = [] ∨ ∃ u, first = [ {| speaker := You; text := u |} ])) ∧
   currentInputTranscriptionRef (refs completed) = "" ∧
   currentOutputTranscriptionRef (refs completed) = "").
Proof.
  intros stopped restarted later completed i o.
  destruct (restart_frame closePromise env source processor s) as (Hi & Ho & Hlog).
  fold stopped in Hi, Ho, Hlog. fold restarted in Hi, Ho, Hlog. fold i in Hi. fold o in Ho.
  split; [| split].
  - subst stopped i o. rewrite stopSession_unfold. split; reflexivity.
  - split; assumption.
  - intros Hkey Hbefore Hcomplete.
    destruct (fragments_accumulate timing before Hbefore restarted)
      as (Hlog' & (more_i & Hi') & (more_o & Ho')).
    fold later in Hlog', Hi', Ho'. rewrite Hi in Hi'. rewrite Ho in Ho'.
    rewrite (Hlog Hkey) in Hlog'.
    destruct (state_of_onmessage_sync timing clock m later) as (Hh & Hci & Hco).
    fold completed in Hh, Hci, Hco. rewrite Hh, Hci, Hco, accumulate_unfold.
    unfold transcribed.
    cbn [hooks refs transcription currentInputTranscriptionRef
         currentOutputTranscriptionRef].
    rewrite Hcomplete, Hlog', Hi', Ho', !append_assoc. cbn [app]. unfold turn_entries.
    set (I := i +:+ more_i +:+ input_fragment m).
    set (O := o +:+ more_o +:+ output_fragment m).
    split; [exists (more_i +:+ input_fragment m), (more_o +:+ output_fragment m);
            split; reflexivity |].
    split; [| split; [| split; reflexivity]].
    + intros Hne.
      assert (HI : nonempty I = true) by (apply nonempty_append, Hne).
      rewrite HI. eexists. eexists. reflexivity.
    + intros Hne.
      assert (HO : nonempty O = true) by (apply nonempty_append, Hne).
      rewrite HO. eexists. eexists. split; [reflexivity |].
      destruct (nonempty I); [right; eexists; reflexivity | left; reflexivity].
Qed.

Lemma fragments_reach_next_turn_witness :
  ∃ t first,
    transcription (hooks (state_of (onmessage_sync AtRender 0 turn_complete
      (run AtRender [MessageArrived 0 (input_text " again")]
         (onopen 5 6 (state_of (startSession all_granted (stopSession true both_spoke))))))))
    = first ++ [ {| speaker := Gemini; text := t |} ].
Proof.
  destruct (fragments_reach_next_turn AtRender true all_granted 5 6
              [(0%Q, input_text " again")] 0 turn_complete both_spoke)
    as (_ & _ & H).
  destruct (H eq_refl eq_refl eq_refl) as (_ & _ & Hg & _).
  destruct (Hg eq_refl) as (t & first & Hlog & _).
  exists t, first. exact Hlog.
Defined.

(** ** The playback cursor *)

Lemma advances_none (s s' : Component) :
  started (browser s') = started (browser s) ->
  (nextStartTimeRef (refs s) <= nextStartTimeRef (refs s'))%Q ->
  advances s s' [].
Proof.
  intros Hlog Hcur. split; [| split].
  - rewrite app_nil_r. exact Hlog.
  - exact Hcur.
  - constructor.
Qed.

(** One event of a running session starts at most one segment, at the cursor,
    and moves the cursor to the end of that segment or leaves it. *)
Lemma dispatch_advances (timing : UpdaterTiming) (ev : Event) (s : Component) :
  session_goes_on ev = true ->
  ∃ new, advances s (state_of (dispatch timing ev s)) new ∧ length new ≤ 1.
Proof.
  intros Hev. destruct ev as [| env | | source processor | clock m | dec source | | | source];
    try discriminate Hev; cbn [dispatch].
  - (* StartClicked *)
    exists []. split; [| cbn; lia]. unfold startSession_begin.
    destruct (start_refused s); apply advances_none; try reflexivity; apply Qle_refl.
  - (* MediaSettled *)
    exists []. split; [| cbn; lia].
    destruct s as [[] [] []], env as [[stream |] ic oc [promise |]];
      apply advances_none; try reflexivity; apply Qle_refl.
  - (* Opened *)
    exists []. split; [| cbn; lia].
    destruct s as [[] [? [stream |] [ic |] ? ? ? ? ? ? ?] []];
      apply advances_none; try reflexivity; apply Qle_refl.
  - (* MessageArrived *)
    exists []. split; [| cbn; lia]. rewrite onmessage_sync_unfold.
    destruct (base64Audio m) as [audio | e];
      [destruct (truthy audio && has_output_context s) |];
      apply advances_none; try reflexivity; try apply Qle_refl.
    cbn. apply Q.le_max_l.
  - (* DecodeSettled *)
    destruct dec as [d |]; cbn [session_goes_on] in Hev.
    + apply Qle_bool_iff in Hev. unfold onmessage_resume.
      destruct (outputAudioContextRef (refs s)) as [ctx |].
      * exists [ {| seg_source := source; seg_start := nextStartTimeRef (refs s);
                    seg_duration := d |} ].
        split; [| cbn; lia]. cbn [state_of]. unfold advances. assignments.
        split; [reflexivity |]. split; [lra |].
        constructor; [| constructor]. unfold seg_end. cbn.
        split; [apply Qle_refl |]. split; [exact Hev | apply Qle_refl].
      * exists []. split; [| cbn; lia].
        apply advances_none; [reflexivity | apply Qle_refl].
    + exists []. split; [| cbn; lia].
      apply advances_none; [reflexivity | apply Qle_refl].
  - (* Ended *)
    exists []. split; [| cbn; lia].
    apply advances_none; [reflexivity | apply Qle_refl].
Qed.

Lemma back_to_back_cons (g : Segment) (l : list Segment) (c : Q) :
  (seg_end g <= c)%Q ->
  Forall (fun g' => (c <= seg_start g')%Q) l ->
  back_to_back l = true ->
  back_to_back (g :: l) = true.
Proof.
  intros Hend Hl Hrest. cbn [back_to_back]. rewrite Hrest, andb_true_r.
  destruct l as [| g' l']; [reflexivity |].
  apply Qle_bool_iff. inversion Hl; subst. eapply Qle_trans; eassumption.
Qed.

Lemma starts_nondecreasing_cons (g : Segment) (l : list Segment) (c : Q) :
  (0 <= seg_duration g)%Q ->
  (seg_end g <= c)%Q ->
  Forall (fun g' => (c <= seg_start g')%Q) l ->
  starts_nondecreasing l = true ->
  starts_nondecreasing (g :: l) = true.
Proof.
  intros Hd Hend Hl Hrest. cbn [starts_nondecreasing]. rewrite Hrest, andb_true_r.
  destruct l as [| g' l']; [reflexivity |].
  apply Qle_bool_iff. inversion Hl; subst. unfold seg_end in Hend. lra.
Qed.

(** Any sequence of events of a running session. *)
Lemma run_advances (timing : UpdaterTiming) (evs : list Event) :
  forallb session_goes_on evs = true ->
  ∀ s, ∃ new, advances s (run timing evs s) new ∧
              back_to_back new = true ∧ starts_nondecreasing new = true.
Proof.
  induction evs as [| ev evs IH]; intros Hevs s.
  - exists []. split; [| split; reflexivity].
    apply advances_none; [reflexivity | apply Qle_refl].
  - cbn [forallb] in Hevs. apply andb_true_iff in Hevs as [Hev Hevs].
    rewrite run_cons.
    destruct (dispatch_advances timing ev s Hev) as (new1 & (Hlog1 & Hcur1 & Hall1) & Hlen).
    destruct (IH Hevs (state_of (dispatch timing ev s)))
      as (new2 & (Hlog2 & Hcur2 & Hall2) & Hbb & Hnd).
    set (s1 := state_of (dispatch timing ev s)) in *.
    set (s2 := run timing evs s1) in *.
    assert (Hafter : Forall (fun g' => (nextStartTimeRef (refs s1) <= seg_start g')%Q) new2).
    { eapply Forall_impl; [exact Hall2 |]. cbn. tauto. }
    exists (new1 ++ new2). split; [split; [| split] |].
    + rewrite Hlog2, Hlog1, app_assoc. reflexivity.
    + eapply Qle_trans; eassumption.
    + apply Forall_app. split.
      * eapply Forall_impl; [exact Hall1 |]. cbn. intros g (Hs & Hd & He).
        repeat split; try assumption. eapply Qle_trans; eassumption.
      * eapply Forall_impl; [exact Hall2 |]. cbn. intros g (Hs & Hd & He).
        repeat split; try assumption. eapply Qle_trans; eassumption.
    + destruct new1 as [| g [| g' new1']]; [split; assumption | | cbn in Hlen; lia].
      inversion Hall1 as [| ? ? (Hs & Hd & He) _]; subst.
      split.
      * eapply back_to_back_cons; eassumption.
      * eapply starts_nondecreasing_cons; eassumption.
Qed.

Lemma scheduled_since_app (s s' : Component) (new : list Segment) :
  started (browser s') = started (browser s) ++ new ->
  scheduled_since s s' = new.
Proof. intros H. unfold scheduled_since. rewrite H. apply drop_app_length. Qed.

(** One payload handled to its end: a segment at [max(cursor, clock)], the
    cursor at its end. *)
Lemma payload_placed (timing : UpdaterTiming) (p : Payload) (s : Component) :
  carries_audio (message p) = true ->
  has_output_context s = true ->
  ∃ s1 s', onmessage_sync timing (arrival p) (message p) s = Suspended s1 ∧
           onmessage_resume (Decoded (duration p)) (node p) s1 = Returned s' ∧
           started (browser s') =
             started (browser s) ++
               [ {| seg_source := node p;
                    seg_start := Qmax (nextStartTimeRef (refs s)) (arrival p);
                    seg_duration := duration p |} ] ∧
           nextStartTimeRef (refs s') =
             (Qmax (nextStartTimeRef (refs s)) (arrival p) + duration p)%Q ∧
           has_output_context s' = true.
Proof.
  intros Hp Hctx. unfold carries_audio in Hp.
  rewrite onmessage_sync_unfold.
  destruct (base64Audio (message p)) as [audio | e]; [| discriminate Hp].
  rewrite Hp, Hctx. cbn [andb]. unfold has_output_context in *.
  destruct (outputAudioContextRef (refs s)) as [ctx |] eqn:Hc; [| discriminate Hctx].
  eexists. eexists. split; [reflexivity |].
  unfold onmessage_resume. assignments.
  change (outputAudioContextRef (refs (transcribed timing (message p) s)))
    with (outputAudioContextRef (refs s)).
  rewrite Hc. split; [reflexivity |]. fields.
  change (outputAudioContextRef (refs (transcribed timing (message p) s)))
    with (outputAudioContextRef (refs s)).
  rewrite ?Hc. repeat split.
Qed.

(** Payloads handled one after the other are placed as the specification
    says. *)
Lemma payloads_follow_spec (timing : UpdaterTiming) (ps : list Payload) :
  forallb (fun p => carries_audio (message p)) ps = true ->
  ∀ s, has_output_context s = true ->
       ∃ new, started (browser (run timing (payload_events ps) s))
                = started (browser s) ++ new ∧
              map placement new = spec_schedule (nextStartTimeRef (refs s)) ps.
Proof.
  induction ps as [| p ps IH]; intros Hps s Hctx.
  - exists []. split; [cbn; rewrite app_nil_r; reflexivity | reflexivity].
  - cbn [forallb] in Hps. apply andb_true_iff in Hps as [Hp Hps].
    destruct (payload_placed timing p s Hp Hctx)
      as (s1 & s' & Hsync & Hresume & Hlog & Hcur & Hctx').
    destruct (IH Hps s' Hctx') as (new & Hlog' & Hspec).
    assert (Hstep : run timing (payload_events (p :: ps)) s
                    = run timing (payload_events ps) s').
    { cbn [payload_events flat_map app]. rewrite !run_cons. cbn [dispatch].
      rewrite Hsync. cbn [state_of]. rewrite Hresume. reflexivity. }
    exists ({| seg_source := node p;
               seg_start := Qmax (nextStartTimeRef (refs s)) (arrival p);
               seg_duration := duration p |} :: new).
    split.
    + rewrite Hstep, Hlog', Hlog, <- app_assoc. reflexivity.
    + cbn [map spec_schedule placement seg_start seg_duration]. f_equal.
      rewrite Hspec, Hcur. reflexivity.
Qed.

(** C1: inbound audio payloads during one session.  Handled one after the
    other, each segment starts at [max(cursor, clock)] and moves the cursor
    by its duration, as the specification schedules them.  And for every
    sequence of events that does not stop the session, in whatever order
    messages arrive and decodings settle, the segments started are in
    non-decreasing order of start time and none starts before the one
    before it ends. *)
Theorem playback_never_overlaps (timing : UpdaterTiming) (s : Component) :
  (∀ ps : list Payload,
     has_output_context s = true ->
     forallb (fun p => carries_audio (message p)) ps = true ->
     map placement (scheduled_since s (run timing (payload_events ps) s))
       = spec_schedule (nextStartTimeRef (refs s)) ps) ∧
  (∀ evs : list Event,
     forallb session_goes_on evs = true ->
     back_to_back (scheduled_since s (run timing evs s)) = true ∧
     starts_nondecreasing (scheduled_since s (run timing evs s)) = true).
Proof.
  split.
  - intros ps Hctx Hps.
    destruct (payloads_follow_spec timing ps Hps s Hctx) as (new & Hlog & Hspec).
    rewrite (scheduled_since_app _ _ _ Hlog). exact Hspec.
  - intros evs Hevs.
    destruct (run_advances timing evs Hevs s) as (new & (Hlog & _) & Hbb & Hnd).
    rewrite (scheduled_since_app _ _ _ Hlog). split; assumption.
Qed.

Lemma playback_never_overlaps_witness :
  map placement (scheduled_since opened_session
                   (run EveryCall (payload_events two_payloads) opened_session))
    = [ (Qmax 0 0, 2); (Qmax (Qmax 0 0 + 2) 0, 3 # 2) ]%Q ∧
  back_to_back (scheduled_since opened_session
                  (run EveryCall (payload_events two_payloads) opened_session)) = true.
Proof.
  destruct (playback_never_overlaps EveryCall opened_session) as [Hspec Hany].
  split.
  - apply (Hspec two_payloads); reflexivity.
  - apply (Hany (payload_events two_payloads)). reflexivity.
Defined.

(** The scenario of the specification: 2.0 s and 1.5 s with the clock at 0
    are placed at 0 and at 2.0, and the cursor ends at 3.5. *)
Example two_payloads_scenario :
  map placement (started (browser (run EveryCall (payload_events two_payloads) opened_session)))
    = [ (0, 2); (2, 3 # 2) ]%Q ∧
  nextStartTimeRef (refs (run EveryCall (payload_events two_payloads) opened_session))
    = (7 # 2)%Q.
Proof. vm_compute. split; reflexivity. Qed.

(** And a stop in the middle of it: both sources are stopped, the cursor is
    back at 0, the microphone is released and the close is asked for. *)
Example stop_while_playing :
  let s := run EveryCall (payload_events two_payloads) opened_session in
  audioSourcesRef (refs (stopSession true s)) = ∅ ∧
  7 ∈ stoppedSources (browser (stopSession true s)) ∧
  8 ∈ stoppedSources (browser (stopSession true s)) ∧
  nextStartTimeRef (refs (stopSession true s)) = 0%Q ∧
  liveStreams (browser (stopSession true s)) = ∅ ∧
  4 ∈ closeRequested (browser (stopSession true s)) ∧
  idle (stopSession true s) = true.
Proof.
  cbv zeta. rewrite stopSession_unfold.
  cbn [refs browser audioSourcesRef nextStartTimeRef stoppedSources liveStreams
       closeRequested].
  split; [reflexivity |].
  split; [apply (bool_decide_unpack _); vm_compute; exact I |].
  split; [apply (bool_decide_unpack _); vm_compute; exact I |].
  split; [reflexivity |].
  split; [apply (bool_decide_unpack _); vm_compute; exact I |].
  split; [apply (bool_decide_unpack _); vm_compute; exact I |].
  reflexivity.
Qed.

(** * Further properties of the component *)

(** ** The callbacks, part by part *)

Lemma startSession_begin_keeps (s : Component) :
  refs (state_of (startSession_begin s)) = refs s ∧
  browser (state_of (startSession_begin s)) = browser s.
Proof. unfold startSession_begin. destruct (start_refused s); split; reflexivity. Qed.


Lemma startSession_resume_playback (env : StartEnv) (s : Component) :
  audioSourcesRef (refs (state_of (startSession_resume env s))) = audioSourcesRef (refs s) ∧
  nextStartTimeRef (refs (state_of (startSession_resume env s))) = nextStartTimeRef (refs s) ∧
  started (browser (state_of (startSession_resume env s))) = started (browser s) ∧
  stoppedSources (browser (state_of (startSession_resume env s))) = stoppedSources (browser s).
Proof.
  destruct s as [[] [] []], env as [[stream |] ic oc [promise |]]; repeat split.
Qed.

Lemma onopen_unfold (source processor : nat) (s : Component) :
  onopen source processor s =
  match inputAudioContextRef (refs s), streamRef (refs s) with
  | Some _, Some _ =>
      {| hooks :=
           {| ai := ai (hooks s); isSessionActive := true; isConnecting := false;
              error := error (hooks s); transcription := transcription (hooks s) |};
         refs :=
           {| sessionPromiseRef := sessionPromiseRef (refs s);
              streamRef := streamRef (refs s);
              inputAudioContextRef := inputAudioContextRef (refs s);
              outputAudioContextRef := outputAudioContextRef (refs s);
              scriptProcessorRef := Some processor;
              mediaStreamSourceRef := Some source;
              nextStartTimeRef := nextStartTimeRef (refs s);
              audioSourcesRef := audioSourcesRef (refs s);
              currentInputTranscriptionRef := currentInputTranscriptionRef (refs s);
              currentOutputTranscriptionRef := currentOutputTranscriptionRef (refs s) |};
         browser :=
           {| liveStreams := liveStreams (browser s);
              openContexts := openContexts (browser s);
              connectedNodes := {[ processor ]} ∪ ({[ source ]} ∪ connectedNodes (browser s));
              closeRequested := closeRequested (browser s);
              started := started (browser s);
              stoppedSources := stoppedSources (browser s);
              console := console (browser s) |} |}
  | _, _ => s
  end.
Proof.
  destruct s as [[] [? [stream |] [ic |] ? ? ? ? ? ? ?] []]; reflexivity.
Qed.

Lemma onmessage_resume_unfold (dec : DecodeResult) (source : nat) (s : Component) :
  onmessage_resume dec source s =
  match dec, outputAudioContextRef (refs s) with
  | DecodeFailed, _ => Threw DecodeError s
  | Decoded _, None => Threw TypeError s
  | Decoded d, Some _ =>
      Returned
        {| hooks := hooks s;
           refs :=
             {| sessionPromiseRef := sessionPromiseRef (refs s);
                streamRef := streamRef (refs s);
                inputAudioContextRef := inputAudioContextRef (refs s);
                outputAudioContextRef := outputAudioContextRef (refs s);
                scriptProcessorRef := scriptProcessorRef (refs s);
                mediaStreamSourceRef := mediaStreamSourceRef (refs s);
                nextStartTimeRef := (nextStartTimeRef (refs s) + d)%Q;
                audioSourcesRef := {[ source ]} ∪ audioSourcesRef (refs s);
                currentInputTranscriptionRef := currentInputTranscriptionRef (refs s);
                currentOutputTranscriptionRef := currentOutputTranscriptionRef (refs s) |};
           browser :=
             {| liveStreams := liveStreams (browser s);
                openContexts := openContexts (browser s);
                connectedNodes := {[ source ]} ∪ connectedNodes (browser s);
                closeRequested := closeRequested (browser s);
                started := started (browser s) ++
                             [ {| seg_source := source;
                                  seg_start := nextStartTimeRef (refs s);
                                  seg_duration := d |} ];
                stoppedSources := stoppedSources (browser s);
                console := console (browser s) |} |}
  end.
Proof.
  destruct s as [[] [? ? ? [ctx |] ? ? ? ? ? ?] []], dec as [d |]; reflexivity.
Qed.

Lemma onerror_unfold (s : Component) :
  onerror s =
  stopSession false
    {| hooks :=
         {| ai := ai (hooks s); isSessionActive := isSessionActive (hooks s);
            isConnecting := isConnecting (hooks s);
            error := Some "A session error occurred. The connection may have been lost.";
            transcription := transcription (hooks s) |};
       refs := refs s;
       browser :=
         {| liveStreams := liveStreams (browser s);
            openContexts := openContexts (browser s);
            connectedNodes := connectedNodes (browser s);
            closeRequested := closeRequested (browser s);
            started := started (browser s);
            stoppedSources := stoppedSources (browser s);
            console := console (browser s) ++ ["Session error:"] |} |}.
Proof. reflexivity. Qed.

Lemma state_of_onmessage_sync_refs (timing : UpdaterTiming) (clock : Q)
    (m : Msg.LiveServerMessage) (s : Component) :
  let s' := state_of (onmessage_sync timing clock m s) in
  browser s' = browser s ∧
  audioSourcesRef (refs s') = audioSourcesRef (refs s) ∧
  (nextStartTimeRef (refs s') = nextStartTimeRef (refs s) ∨
   nextStartTimeRef (refs s') = Qmax (nextStartTimeRef (refs s)) clock) ∧
  sessionPromiseRef (refs s') = sessionPromiseRef (refs s) ∧
  streamRef (refs s') = streamRef (refs s) ∧
  inputAudioContextRef (refs s') = inputAudioContextRef (refs s) ∧
  outputAudioContextRef (refs s') = outputAudioContextRef (refs s) ∧
  scriptProcessorRef (refs s') = scriptProcessorRef (refs s) ∧
  mediaStreamSourceRef (refs s') = mediaStreamSourceRef (refs s).
Proof.
  cbv zeta. rewrite onmessage_sync_unfold.
  destruct (base64Audio m) as [audio | e];
    [destruct (truthy audio && has_output_context s) |];
    repeat split; try (left; reflexivity); right; reflexivity.
Qed.

(** ** Flags *)




(** ** Sources *)

Lemma dispatch_only_started (timing : UpdaterTiming) (ev : Event) (s : Component) :
  only_started_sources s ->
  only_started_sources (state_of (dispatch timing ev s)).
Proof.
  unfold only_started_sources, started_sources. intros [Hp Hs].
  destruct ev as [| env | closePromise | source processor | clock m | dec source | | | source];
    cbn [dispatch state_of].
  - destruct (startSession_begin_keeps s) as [-> ->]. split; assumption.
  - destruct (startSession_resume_playback env s) as (-> & _ & -> & ->). split; assumption.
  - rewrite stopSession_unfold. cbn [refs browser audioSourcesRef started stoppedSources].
    split; set_solver.
  - rewrite onopen_unfold.
    destruct (inputAudioContextRef (refs s)), (streamRef (refs s)); split; assumption.
  - destruct (state_of_onmessage_sync_refs timing clock m s) as (-> & -> & _).
    split; assumption.
  - rewrite onmessage_resume_unfold.
    destruct dec as [d |], (outputAudioContextRef (refs s));
      cbn [state_of refs browser audioSourcesRef started stoppedSources];
      try (split; assumption).
    rewrite map_app, list_to_set_app_L. cbn [map seg_source]. split; set_solver.
  - unfold onclose. rewrite stopSession_unfold.
    cbn [refs browser audioSourcesRef started stoppedSources]. split; set_solver.
  - rewrite onerror_unfold, stopSession_unfold.
    cbn [refs browser audioSourcesRef started stoppedSources]. split; set_solver.
  - unfold onended, set_audioSourcesRef, on_refs.
    cbn [refs browser audioSourcesRef started stoppedSources]. split; set_solver.
Qed.

(** X2: [stop()] is only ever called on sources that were started.  If every
    pending and every stopped source was started before, this stays so after
    any sequence of events: a source enters the pending set after its
    [start] (lines 107-109) and [stopSession] stops pending sources only. *)
Theorem only_started_sources_are_stopped (timing : UpdaterTiming) (evs : list Event)
    (s : Component) :
  only_started_sources s ->
  only_started_sources (run timing evs s).
Proof.
  revert s. induction evs as [| ev evs IH]; intros s H; [exact H |].
  rewrite run_cons. apply IH, dispatch_only_started, H.
Qed.

Lemma only_started_sources_are_stopped_witness :
  only_started_sources
    (run EveryCall (payload_events two_payloads ++ [Ended 7; StopCalled true]) opened_session).
Proof.
  apply (only_started_sources_are_stopped EveryCall
           (payload_events two_payloads ++ [Ended 7; StopCalled true]) opened_session).
  split; apply (bool_decide_unpack _); vm_compute; exact I.
Defined.

(** ** Start times *)

Lemma dispatch_nonnegative (timing : UpdaterTiming) (ev : Event) (s : Component) :
  duration_nonnegative ev = true ->
  (0 <= nextStartTimeRef (refs s))%Q ->
  ∃ new, started (browser (state_of (dispatch timing ev s))) = started (browser s) ++ new ∧
         Forall (fun g => (0 <= seg_start g)%Q) new ∧
         (0 <= nextStartTimeRef (refs (state_of (dispatch timing ev s))))%Q.
Proof.
  intros Hev Hcur.
  destruct (session_goes_on ev) eqn:Hon.
  - destruct (dispatch_advances timing ev s Hon) as (new & (Hlog & Hle & Hall) & _).
    exists new. split; [exact Hlog |]. split.
    + eapply Forall_impl; [exact Hall |]. cbn. intros g (Hs & _ & _).
      eapply Qle_trans; eassumption.
    + eapply Qle_trans; eassumption.
  - exists []. rewrite app_nil_r.
    destruct ev as [| env | closePromise | source processor | clock m | [d |] source | | | source];
      try discriminate Hon; cbn [dispatch state_of].
    + rewrite stopSession_unfold. repeat split; [constructor | apply Qle_refl].
    + cbn [session_goes_on] in Hon. cbn [duration_nonnegative] in Hev. congruence.
    + unfold onclose. rewrite stopSession_unfold. repeat split; [constructor | apply Qle_refl].
    + rewrite onerror_unfold, stopSession_unfold. repeat split; [constructor | apply Qle_refl].
Qed.

(** X3: [source.start] never gets a negative time.  From a cursor that is
    not negative, whatever events follow (stops and new starts among them,
    clocks of any value), every segment is started at a time that is not
    negative and the cursor stays so, provided the decoded buffers have
    durations that are not negative. *)
Theorem start_times_never_negative (timing : UpdaterTiming) (evs : list Event)
    (s : Component) :
  Qle_bool 0 (nextStartTimeRef (refs s)) = true ->
  forallb duration_nonnegative evs = true ->
  forallb (fun g => Qle_bool 0 (seg_start g)) (scheduled_since s (run timing evs s)) = true ∧
  Qle_bool 0 (nextStartTimeRef (refs (run timing evs s))) = true.
Proof.
  intros Hcur Hevs. apply Qle_bool_iff in Hcur.
  assert (H : ∃ new, started (browser (run timing evs s)) = started (browser s) ++ new ∧
                     Forall (fun g => (0 <= seg_start g)%Q) new ∧
                     (0 <= nextStartTimeRef (refs (run timing evs s)))%Q).
  { revert s Hcur. induction evs as [| ev evs IH]; intros s Hcur.
    - exists []. rewrite app_nil_r. repeat split; [constructor | exact Hcur].
    - cbn [forallb] in Hevs. apply andb_true_iff in Hevs as [Hev Hevs].
      rewrite run_cons.
      destruct (dispatch_nonnegative timing ev s Hev Hcur) as (new1 & Hlog1 & Hall1 & Hcur1).
      destruct (IH Hevs _ Hcur1) as (new2 & Hlog2 & Hall2 & Hcur2).
      exists (new1 ++ new2). split; [| split].
      + rewrite Hlog2, Hlog1, app_assoc. reflexivity.
      + apply Forall_app. split; assumption.
      + exact Hcur2. }
  destruct H as (new & Hlog & Hall & Hend).
  rewrite (scheduled_since_app _ _ _ Hlog). split.
  - apply forallb_forall. intros g Hg. apply Qle_bool_iff.
    rewrite Forall_forall in Hall. apply Hall. apply list_elem_of_In. exact Hg.
  - apply Qle_bool_iff. exact Hend.
Qed.

Lemma start_times_never_negative_witness :
  forallb (fun g => Qle_bool 0 (seg_start g))
    (scheduled_since opened_session
       (run EveryCall [ MessageArrived (-3) (model_turn [audio_part "AAAA"]);
                        StopCalled true;
                        DecodeSettled (Decoded 2) 7 ] opened_session)) = true.
Proof.
  apply (start_times_never_negative EveryCall
           [ MessageArrived (-3) (model_turn [audio_part "AAAA"]);
             StopCalled true;
             DecodeSettled (Decoded 2) 7 ] opened_session);
    reflexivity.
Defined.

(** ** The transcript *)

Lemma dispatch_transcript (timing : UpdaterTiming) (ev : Event) (s : Component) :
  not_a_start ev = true ->
  ∃ more, transcription (hooks (state_of (dispatch timing ev s)))
          = transcription (hooks s) ++ more.
Proof.
  intros Hev.
  destruct ev as [| env | closePromise | source processor | clock m | dec source | | | source];
    try discriminate Hev; cbn [dispatch state_of].
  - exists []. rewrite app_nil_r, startSession_resume_hooks.
    destruct (getUserMedia env), (connect env); reflexivity.
  - exists []. rewrite app_nil_r, stopSession_unfold. reflexivity.
  - exists []. rewrite app_nil_r, onopen_unfold.
    destruct (inputAudioContextRef (refs s)), (streamRef (refs s)); reflexivity.
  - destruct (state_of_onmessage_sync timing clock m s) as (-> & _).
    unfold transcribed. cbn [hooks transcription].
    destruct (truthy_flag (Msg.serverContent m ?> Msg.turnComplete)).
    + eexists. reflexivity.
    + exists []. rewrite app_nil_r. reflexivity.
  - exists []. rewrite app_nil_r, onmessage_resume_unfold.
    destruct dec, (outputAudioContextRef (refs s)); reflexivity.
  - exists []. rewrite app_nil_r. unfold onclose. rewrite stopSession_unfold. reflexivity.
  - exists []. rewrite app_nil_r, onerror_unfold, stopSession_unfold. reflexivity.
  - exists []. rewrite app_nil_r. reflexivity.
Qed.

(** X4: only a new start removes entries from the transcript.  Through any
    sequence of events without the click that starts a session (stops,
    closures and errors among them) the transcript keeps its entries, in
    their order, and only gets entries appended; a stop leaves it exactly as
    it is. *)
Theorem transcript_kept_until_next_start (timing : UpdaterTiming) (evs : list Event)
    (closePromise : bool) (s : Component) :
  forallb not_a_start evs = true ->
  transcription (hooks s) `prefix_of` transcription (hooks (run timing evs s)) ∧
  transcription (hooks (stopSession closePromise s)) = transcription (hooks s).
Proof.
  intros Hevs. split.
  - revert s. induction evs as [| ev evs IH]; intros s; [reflexivity |].
    cbn [forallb] in Hevs. apply andb_true_iff in Hevs as [Hev Hevs].
    rewrite run_cons.
    destruct (dispatch_transcript timing ev s Hev) as (more & Hmore).
    transitivity (transcription (hooks (state_of (dispatch timing ev s)))).
    + exists more. exact Hmore.
    + apply IH, Hevs.
  - rewrite stopSession_unfold. reflexivity.
Qed.

Lemma transcript_kept_until_next_start_witness :
  transcription (hooks both_spoke) `prefix_of`
  transcription (hooks (run EveryCall [MessageArrived 0 turn_complete; StopCalled true; Closed]
                          both_spoke)).
Proof.
  apply (transcript_kept_until_next_start EveryCall
           [MessageArrived 0 turn_complete; StopCalled true; Closed] true both_spoke).
  reflexivity.
Defined.

(** ** Fragments *)

(** X5: fragments are concatenated in the order of arrival.  After messages
    that do not complete a turn, each accumulator holds what it held before
    followed by the fragments of its side, in order (a message without a
    fragment, or with an empty one, adds nothing), and the transcript is as
    before. *)
Theorem fragments_concatenate_in_order (timing : UpdaterTiming)
    (before : list (Q * Msg.LiveServerMessage)) (s : Component) :
  forallb (fun cm => negb (completes_turn cm.2)) before = true ->
  let s' := run timing (map arrives before) s in
  currentInputTranscriptionRef (refs s') =
    currentInputTranscriptionRef (refs s)
      +:+ concat_text (map (fun cm => input_fragment cm.2) before) ∧
  currentOutputTranscriptionRef (refs s') =
    currentOutputTranscriptionRef (refs s)
      +:+ concat_text (map (fun cm => output_fragment cm.2) before) ∧
  transcription (hooks s') = transcription (hooks s).
Proof.
  revert s. induction before as [| [clock m] before IH]; intros s Hall.
  - cbn. rewrite !append_empty_r. repeat split.
  - cbn [forallb] in Hall. apply andb_true_iff in Hall as [Hm Hall].
    cbn [fst snd] in Hm. apply negb_true_iff in Hm. unfold completes_turn in Hm.
    cbn [map fst snd]. change (arrives (clock, m)) with (MessageArrived clock m).
    rewrite run_cons. cbn [dispatch].
    destruct (IH (state_of (onmessage_sync timing clock m s)) Hall) as (Hi & Ho & Hlog).
    destruct (state_of_onmessage_sync timing clock m s) as (Hh & Hi1 & Ho1).
    cbv zeta. rewrite Hi, Ho, Hlog, Hh, Hi1, Ho1.
    unfold transcribed, concat_text.
    cbn [hooks refs transcription currentInputTranscriptionRef
         currentOutputTranscriptionRef foldr].
    rewrite Hm, !append_assoc. repeat split.
Qed.

Lemma fragments_concatenate_in_order_witness :
  currentInputTranscriptionRef
    (refs (run AtRender (map arrives [ (0%Q, input_text "Hel"); (0%Q, output_text "Hi");
                                       (0%Q, input_text ""); (0%Q, input_text "lo") ])
             opened_session))
  = "" +:+ concat_text ["Hel"; ""; ""; "lo"].
Proof.
  apply (fragments_concatenate_in_order AtRender
           [ (0%Q, input_text "Hel"); (0%Q, output_text "Hi");
             (0%Q, input_text ""); (0%Q, input_text "lo") ] opened_session).
  reflexivity.
Defined.

(** ** The shapes of a message *)

Lemma base64Audio_throws_iff (m : Msg.LiveServerMessage) :
  (∃ e, base64Audio m = Throw e) ↔ first_part_unreadable m = true.
Proof.
  unfold base64Audio, first_part_unreadable.
  destruct (Msg.serverContent m ?> Msg.modelTurn) as [turn |].
  - destruct (Msg.parts turn) as [[| p ps] |].
    + split; [intros [e H]; discriminate H | discriminate].
    + destruct (Msg.inlineData p).
      * split; [intros [e H]; discriminate H | discriminate].
      * split; [reflexivity | eexists; reflexivity].
    + split; [reflexivity | eexists; reflexivity].
  - split; [intros [e H]; discriminate H | discriminate].
Qed.

Lemma base64Audio_shape (m : Msg.LiveServerMessage) :
  (first_part_unreadable m = true ∧ base64Audio m = Throw TypeError) ∨
  (first_part_unreadable m = false ∧ ∃ audio, base64Audio m = Normal audio).
Proof.
  unfold base64Audio, first_part_unreadable.
  destruct (Msg.serverContent m ?> Msg.modelTurn) as [turn |];
    [| right; split; [reflexivity | eexists; reflexivity]].
  destruct (Msg.parts turn) as [[| p ps] |];
    [right; split; [reflexivity | eexists; reflexivity] | | left; split; reflexivity].
  destruct (Msg.inlineData p);
    [right; split; [reflexivity | eexists; reflexivity] | left; split; reflexivity].
Qed.

(** Where [decode] returns, the callback is at its [await] as
    [onmessage_sync] has it; in every case the component is the same. *)
Lemma onmessage_to_await_sync (timing : UpdaterTiming) (clock : Q)
    (m : Msg.LiveServerMessage) (s : Component) :
  onmessage_to_await (fun _ => true) timing clock m s = onmessage_sync timing clock m s.
Proof. reflexivity. Qed.

Lemma onmessage_to_await_unfold (decode_returns : string -> bool) (timing : UpdaterTiming)
    (clock : Q) (m : Msg.LiveServerMessage) (s : Component) :
  onmessage_to_await decode_returns timing clock m s =
  match base64Audio m with
  | Throw e => Threw e (transcribed timing m s)
  | Normal audio =>
      if truthy audio && has_output_context s
      then
        let s' := set_nextStartTimeRef (Qmax (nextStartTimeRef (refs s)) clock)
                    (transcribed timing m s) in
        if decode_returns (text_of audio) then Suspended s' else Threw DecodeError s'
      else Returned (transcribed timing m s)
  end.
Proof.
  pose proof (onmessage_sync_unfold timing clock m s) as H.
  unfold onmessage_sync in H. unfold onmessage_to_await.
  set (w := if truthy_flag (Msg.serverContent m ?> Msg.turnComplete)
            then finalize timing (accumulate m s, []) else (accumulate m s, [])) in *.
  cbv zeta in *.
  destruct (base64Audio m) as [audio | e]; [| exact H].
  destruct (truthy audio && has_output_context w.1);
    destruct (truthy audio && has_output_context s);
    try discriminate H;
    apply (f_equal state_of) in H; cbn [state_of] in H; rewrite H; reflexivity.
Qed.

(** X6: how [onmessage] can be left before its [await].  By the [TypeError]
    of line 99, exactly when the message has a model turn whose [parts] is
    missing or whose first part has no [inlineData]; or by the error of
    [decode] at line 102, exactly when the first part carries a non-empty
    payload, the output context is there and [decode] throws on the payload.
    In both cases the transcript work of lines 81-97 is done and the browser
    is as before: nothing is logged, started or stopped.  A message without
    [serverContent], without [modelTurn] or with an empty [parts] is never
    left by an exception. *)
Theorem onmessage_left_before_await (decode_returns : string -> bool)
    (timing : UpdaterTiming) (clock : Q) (m : Msg.LiveServerMessage) (s : Component) :
  ((∃ s', onmessage_to_await decode_returns timing clock m s = Threw TypeError s')
     ↔ first_part_unreadable m = true) ∧
  ((∃ s', onmessage_to_await decode_returns timing clock m s = Threw DecodeError s')
     ↔ ∃ audio, base64Audio m = Normal (Some audio) ∧ nonempty audio = true ∧
                has_output_context s = true ∧ decode_returns audio = false) ∧
  (∀ e s', onmessage_to_await decode_returns timing clock m s = Threw e s' ->
           hooks s' = hooks (transcribed timing m s) ∧ browser s' = browser s).
Proof.
  rewrite onmessage_to_await_unfold. cbv zeta.
  destruct (base64Audio_shape m) as [[-> ->] | [-> [audio ->]]].
  - split; [split; [reflexivity | eexists; reflexivity] |].
    split; [split; [intros [s' H]; discriminate H | intros (a & H & _); discriminate H] |].
    intros e s' H. injection H as <- <-. split; reflexivity.
  - split.
    { split; [| discriminate]. intros [s' H].
      destruct (truthy audio && has_output_context s);
        [destruct (decode_returns (text_of audio)) |]; discriminate H. }
    split.
    + split.
      * intros [s' H].
        destruct audio as [a |]; [| discriminate H].
        destruct (truthy (Some a)) eqn:Ha; [| discriminate H].
        destruct (has_output_context s); [| discriminate H].
        cbn [andb] in H. change (text_of (Some a)) with a in H.
        destruct (decode_returns a) eqn:Hd; [discriminate H |].
        exists a. repeat split; [exact Ha | exact Hd].
      * intros (a & Heq & Ha & Hctx & Hd). injection Heq as ->.
        unfold nonempty in Ha. rewrite Ha, Hctx. cbn [andb].
        change (text_of (Some a)) with a.
        rewrite Hd. eexists. reflexivity.
    + intros e s' H.
      destruct (truthy audio && has_output_context s); [| discriminate H].
      destruct (decode_returns (text_of audio)); [discriminate H |].
      injection H as <- <-. split; reflexivity.
Qed.

Lemma onmessage_left_before_await_witness :
  ∃ s', onmessage_to_await (fun _ => false) EveryCall 0 (model_turn [audio_part "AAAA"])
          opened_session
        = Threw DecodeError s'.
Proof.
  destruct (onmessage_left_before_await (fun _ => false) EveryCall 0
              (model_turn [audio_part "AAAA"]) opened_session) as (_ & [_ H] & _).
  apply H. exists "AAAA". repeat split.
Defined.

(** X7: only the first part of a model turn counts.  Two messages that
    differ in the parts after the first one are handled alike; so audio in a
    later part is never decoded, and when the first part has [inlineData]
    without data the message is handled to its end with no segment started,
    whatever the later parts carry. *)
Theorem only_first_part_counts (timing : UpdaterTiming) (clock : Q)
    (c : Msg.LiveServerContent) (p : Msg.Part) (ps ps' : list Msg.Part)
    (s : Component) :
  onmessage_sync timing clock (with_parts c (p :: ps)) s
    = onmessage_sync timing clock (with_parts c (p :: ps')) s ∧
  (∀ blob, Msg.inlineData p = Some blob -> truthy (Msg.data blob) = false ->
     ∃ s', onmessage_sync timing clock (with_parts c (p :: ps)) s = Returned s' ∧
           started (browser s') = started (browser s) ∧
           nextStartTimeRef (refs s') = nextStartTimeRef (refs s)).
Proof.
  rewrite !onmessage_sync_unfold. split; [reflexivity |].
  intros blob Hp Hdata. unfold base64Audio.
  cbn [with_parts Msg.serverContent chain Msg.modelTurn Msg.parts].
  rewrite Hp, Hdata. cbn [andb]. eexists. repeat split.
Qed.

Lemma only_first_part_counts_witness :
  ∃ s', onmessage_sync EveryCall 0
          (model_turn [ {| Msg.inlineData := Some {| Msg.data := None |};
                           Msg.partText := None |};
                        audio_part "AAAA" ]) opened_session = Returned s' ∧
        started (browser s') = started (browser opened_session).
Proof.
  destruct (only_first_part_counts EveryCall 0
              {| Msg.modelTurn := None; Msg.turnComplete := None;
                 Msg.inputTranscription := None; Msg.outputTranscription := None |}
              {| Msg.inlineData := Some {| Msg.data := None |}; Msg.partText := None |}
              [audio_part "AAAA"] [] opened_session) as [_ H].
  destruct (H {| Msg.data := None |} eq_refl eq_refl) as (s' & Hr & Hs & _).
  exists s'. split; [exact Hr | exact Hs].
Defined.

(** X8: what [onmessage] never touches.  Whatever the message and whatever
    the decoder answers, the callback leaves the flags, the error indicator,
    the microphone stream, the contexts, the capture nodes and the session
    promise as they are, asks for no close, stops no source and logs
    nothing. *)
Theorem onmessage_keeps_the_connection (timing : UpdaterTiming) (clock : Q)
    (m : Msg.LiveServerMessage) (dec : DecodeResult) (source : nat) (s : Component) :
  let s' := state_of (onmessage timing clock m dec source s) in
  (ai (hooks s') = ai (hooks s) ∧
   isSessionActive (hooks s') = isSessionActive (hooks s) ∧
   isConnecting (hooks s') = isConnecting (hooks s) ∧
   error (hooks s') = error (hooks s)) ∧
  (sessionPromiseRef (refs s') = sessionPromiseRef (refs s) ∧
   streamRef (refs s') = streamRef (refs s) ∧
   inputAudioContextRef (refs s') = inputAudioContextRef (refs s) ∧
   outputAudioContextRef (refs s') = outputAudioContextRef (refs s) ∧
   scriptProcessorRef (refs s') = scriptProcessorRef (refs s) ∧
   mediaStreamSourceRef (refs s') = mediaStreamSourceRef (refs s)) ∧
  (liveStreams (browser s') = liveStreams (browser s) ∧
   openContexts (browser s') = openContexts (browser s) ∧
   closeRequested (browser s') = closeRequested (browser s) ∧
   stoppedSources (browser s') = stoppedSources (browser s) ∧
   console (browser s') = console (browser s)).
Proof.
  cbv zeta. unfold onmessage. rewrite onmessage_sync_unfold.
  destruct (base64Audio m) as [audio | e]; [| repeat split].
  destruct (truthy audio && has_output_context s); [| repeat split].
  rewrite onmessage_resume_unfold.
  unfold set_nextStartTimeRef, on_refs, transcribed.
  cbn [refs outputAudioContextRef].
  destruct dec as [d |], (outputAudioContextRef (refs s)); repeat split.
Qed.

(** ** Callbacks that come late *)

(** X9: a transport that opens after a stop does not activate the session.
    [stopSession] has emptied [streamRef], so [onopen] returns at line 61:
    no capture node is created and the flags stay down.  The same holds for
    the [ended] events of the sources that the stop has stopped: they find
    the pending set empty. *)
Theorem late_open_and_ended_change_nothing (closePromise : bool)
    (source processor : nat) (s : Component) :
  onopen source processor (stopSession closePromise s) = stopSession closePromise s ∧
  onended source (stopSession closePromise s) = stopSession closePromise s.
Proof.
  split.
  - rewrite onopen_unfold, stopSession_unfold. cbn [refs inputAudioContextRef streamRef].
    destruct (inputAudioContextRef (refs s)); reflexivity.
  - unfold onended, set_audioSourcesRef, on_refs. rewrite stopSession_unfold.
    cbn [hooks refs browser sessionPromiseRef streamRef inputAudioContextRef
         outputAudioContextRef scriptProcessorRef mediaStreamSourceRef nextStartTimeRef
         audioSourcesRef currentInputTranscriptionRef currentOutputTranscriptionRef].
    f_equal. f_equal. set_solver.
Qed.

(** X10: a stop during the [await] of [getUserMedia] does not cancel the
    start.  When the microphone is granted afterwards the rest of
    [startSession] runs all the same: the stream is acquired and kept in
    [streamRef], the new session promise is not asked to close, and an
    [onopen] that follows connects the capture nodes and raises
    [isSessionActive]. *)
Theorem stop_during_await_does_not_cancel_start (closePromise : bool) (env : StartEnv)
    (stream promise source processor : nat) (s waiting : Component) :
  startSession_begin s = Suspended waiting ->
  getUserMedia env = Given stream ->
  connect env = Given promise ->
  let resumed := state_of (startSession_resume env (stopSession closePromise waiting)) in
  let opened := onopen source processor resumed in
  streamRef (refs resumed) = Some stream ∧
  stream ∈ liveStreams (browser resumed) ∧
  sessionPromiseRef (refs resumed) = Some promise ∧
  closeRequested (browser resumed) =
    (if closePromise
     then closeRequested (browser s) ∪ handle_set (sessionPromiseRef (refs s))
     else closeRequested (browser s)) ∧
  isSessionActive (hooks opened) = true ∧
  source ∈ connectedNodes (browser opened) ∧
  processor ∈ connectedNodes (browser opened).
Proof.
  intros Hbegin Hgum Hconn. cbv zeta.
  assert (Hw : refs waiting = refs s ∧ browser waiting = browser s).
  { pose proof (startSession_begin_keeps s) as H. rewrite Hbegin in H. exact H. }
  destruct Hw as [Hr Hb].
  rewrite onopen_unfold, startSession_resume_unfold, Hgum, Hconn. cbn [state_of].
  rewrite stopSession_unfold, Hr, Hb.
  unfold set_sessionPromiseRef, on_refs, acquired.
  cbn [hooks refs browser sessionPromiseRef streamRef inputAudioContextRef
       liveStreams closeRequested connectedNodes isSessionActive
       newInputContext newOutputContext].
  repeat split; set_solver.
Qed.

Lemma stop_during_await_does_not_cancel_start_witness :
  1 ∈ liveStreams (browser (run EveryCall
        [StartClicked; StopCalled true; MediaSettled all_granted] (mounted true))).
Proof.
  destruct (stop_during_await_does_not_cancel_start true all_granted 1 4 5 6
              (mounted true) (state_of (startSession_begin (mounted true)))
              eq_refl eq_refl eq_refl) as (_ & H & _).
  exact H.
Defined.

(** X11: a stop does not cancel a decoding in flight.  When the decoder
    answers after [stopSession], lines 103-109 still run: the source is
    started at the cursor the stop has reset, that is at 0, and enters the
    pending set, while the session stays idle. *)
Theorem decode_settling_after_stop_still_plays (closePromise : bool) (d : Q)
    (source : nat) (s : Component) :
  has_output_context s = true ->
  ∃ s', onmessage_resume (Decoded d) source (stopSession closePromise s) = Returned s' ∧
        scheduled_since (stopSession closePromise s) s' =
          [ {| seg_source := source; seg_start := 0; seg_duration := d |} ] ∧
        audioSourcesRef (refs s') = {[ source ]} ∧
        idle s' = true.
Proof.
  unfold has_output_context. intros Hctx.
  destruct (outputAudioContextRef (refs s)) as [ctx |] eqn:Hc; [| discriminate Hctx].
  rewrite onmessage_resume_unfold, stopSession_unfold.
  cbn [refs outputAudioContextRef]. rewrite Hc.
  eexists. split; [reflexivity |]. unfold scheduled_since, idle.
  cbn [hooks refs browser started audioSourcesRef nextStartTimeRef
       isConnecting isSessionActive negb andb].
  rewrite drop_app_length. repeat split. set_solver.
Qed.

Lemma decode_settling_after_stop_still_plays_witness :
  ∃ s', onmessage_resume (Decoded 2) 9 (stopSession true opened_session) = Returned s' ∧
        audioSourcesRef (refs s') = {[ 9 ]}.
Proof.
  destruct (decode_settling_after_stop_still_plays true 2 9 opened_session eq_refl)
    as (s' & H & _ & Hp & _).
  exists s'. split; [exact H | exact Hp].
Defined.

(** X12: the pending set after a segment has played.  The [ended] listener
    of line 106 takes the source out of the pending set and leaves the other
    sources in it; for a source that was not pending before its payload, the
    set is again what it was. *)
Theorem ended_source_leaves_pending_set (d : Q) (source : nat) (s : Component) :
  has_output_context s = true ->
  ∃ s', onmessage_resume (Decoded d) source s = Returned s' ∧
        source ∈ audioSourcesRef (refs s') ∧
        audioSourcesRef (refs (onended source s')) = audioSourcesRef (refs s) ∖ {[ source ]} ∧
        (source ∉ audioSourcesRef (refs s) ->
         audioSourcesRef (refs (onended source s')) = audioSourcesRef (refs s)).
Proof.
  unfold has_output_context. intros Hctx.
  destruct (outputAudioContextRef (refs s)) as [ctx |] eqn:Hc; [| discriminate Hctx].
  rewrite onmessage_resume_unfold, Hc.
  eexists. split; [reflexivity |].
  unfold onended, set_audioSourcesRef, on_refs. cbn [refs audioSourcesRef].
  repeat split; set_solver.
Qed.

Lemma ended_source_leaves_pending_set_witness :
  ∃ s', onmessage_resume (Decoded 2) 9 opened_session = Returned s' ∧
        audioSourcesRef (refs (onended 9 s')) = audioSourcesRef (refs opened_session) ∖ {[ 9 ]}.
Proof.
  destruct (ended_source_leaves_pending_set 2 9 opened_session eq_refl)
    as (s' & H & _ & He & _).
  exists s'. split; [exact H | exact He].
Defined.

(** ** A session from start to restart *)

(** X13: a start that succeeds.  Past the guard, with the microphone granted
    and a session promise given, [startSession] ends with the session still
    connecting, no error, an empty transcript and the stream, the two
    contexts and the promise in their cells; the button is disabled.  The
    [onopen] that follows makes the session active and not connecting,
    keeps the cells and connects the two capture nodes. *)
Theorem successful_start_then_open (env : StartEnv) (stream promise source processor : nat)
    (s : Component) :
  start_refused s = false ->
  getUserMedia env = Given stream ->
  connect env = Given promise ->
  ∃ s1, startSession env s = Returned s1 ∧
        (isConnecting (hooks s1) = true ∧ isSessionActive (hooks s1) = false ∧
         error (hooks s1) = None ∧ transcription (hooks s1) = [] ∧
         disabled (view s1) = true) ∧
        (streamRef (refs s1) = Some stream ∧
         inputAudioContextRef (refs s1) = Some (newInputContext env) ∧
         outputAudioContextRef (refs s1) = Some (newOutputContext env) ∧
         sessionPromiseRef (refs s1) = Some promise ∧
         stream ∈ liveStreams (browser s1)) ∧
        (isConnecting (hooks (onopen source processor s1)) = false ∧
         isSessionActive (hooks (onopen source processor s1)) = true ∧
         scriptProcessorRef (refs (onopen source processor s1)) = Some processor ∧
         mediaStreamSourceRef (refs (onopen source processor s1)) = Some source ∧
         streamRef (refs (onopen source processor s1)) = Some stream ∧
         source ∈ connectedNodes (browser (onopen source processor s1)) ∧
         processor ∈ connectedNodes (browser (onopen source processor s1))).
Proof.
  intros Hguard Hgum Hconn.
  unfold startSession. rewrite (startSession_begin_unfold s Hguard).
  rewrite startSession_resume_unfold, Hgum, Hconn.
  eexists. split; [reflexivity |].
  rewrite onopen_unfold.
  unfold set_sessionPromiseRef, on_refs, acquired, view.
  assert (Hactive : isSessionActive (hooks s) = false).
  { unfold start_refused in Hguard.
    destruct (ai (hooks s)), (isConnecting (hooks s)), (isSessionActive (hooks s));
      first [reflexivity | discriminate Hguard]. }
  cbn [hooks refs browser isConnecting isSessionActive error transcription ai
       sessionPromiseRef streamRef inputAudioContextRef outputAudioContextRef
       scriptProcessorRef mediaStreamSourceRef liveStreams connectedNodes
       disabled orb].
  rewrite Hactive. repeat split; set_solver.
Qed.

Lemma successful_start_then_open_witness :
  ∃ s1, startSession all_granted (mounted true) = Returned s1 ∧
        isSessionActive (hooks (onopen 5 6 s1)) = true.
Proof.
  destruct (successful_start_then_open all_granted 1 4 5 6 (mounted true)
              eq_refl eq_refl eq_refl) as (s1 & H & _ & _ & _ & Ha & _).
  exists s1. split; [exact H | exact Ha].
Defined.

Lemma dispatch_leaves_cursor (timing : UpdaterTiming) (ev : Event) (s : Component) :
  leaves_cursor ev = true ->
  nextStartTimeRef (refs s) = 0%Q ->
  nextStartTimeRef (refs (state_of (dispatch timing ev s))) = 0%Q.
Proof.
  intros Hev Hcur.
  destruct ev as [| env | closePromise | source processor | clock m | [d |] source | | | source];
    try discriminate Hev; cbn [dispatch state_of].
  - destruct (startSession_begin_keeps s) as [-> _]. exact Hcur.
  - destruct (startSession_resume_playback env s) as (_ & -> & _). exact Hcur.
  - rewrite stopSession_unfold. reflexivity.
  - rewrite onopen_unfold.
    destruct (inputAudioContextRef (refs s)), (streamRef (refs s)); exact Hcur.
  - cbn [leaves_cursor] in Hev. apply negb_true_iff in Hev. unfold carries_audio in Hev.
    rewrite onmessage_sync_unfold.
    destruct (base64Audio m) as [audio | e]; [rewrite Hev |]; exact Hcur.
  - exact Hcur.
  - unfold onclose. rewrite stopSession_unfold. reflexivity.
  - rewrite onerror_unfold, stopSession_unfold. reflexivity.
  - exact Hcur.
Qed.

(** X14: after a stop the next session starts afresh, unless audio of the
    old one comes in between.  After [stopSession] a start passes the guard
    of line 44 exactly when the key is configured.  Whatever callbacks run
    after the stop (starts that fail or succeed, their [onopen], further
    stops, transcript messages, sources that end), as long as no decoding
    settles with a buffer and no message with an audio payload arrives among
    them, the cursor is still 0 and the next payload is started at
    [max(0, clock)].  In particular this is so for the first payload of the
    session that a granted start opens right after the stop. *)
Theorem restart_begins_at_the_clock (timing : UpdaterTiming) (closePromise : bool)
    (between : list Event) (env : StartEnv) (stream promise source processor : nat)
    (p : Payload) (s : Component) :
  start_refused (stopSession closePromise s) = negb (ai (hooks s)) ∧
  (forallb leaves_cursor between = true ->
   let later := run timing between (stopSession closePromise s) in
   nextStartTimeRef (refs later) = 0%Q ∧
   (has_output_context later = true ->
    carries_audio (message p) = true ->
    map placement (scheduled_since later (run timing (payload_events [p]) later))
      = [ (Qmax 0 (arrival p), duration p) ])) ∧
  (ai (hooks s) = true ->
   getUserMedia env = Given stream ->
   connect env = Given promise ->
   carries_audio (message p) = true ->
   let restarted := onopen source processor
                      (state_of (startSession env (stopSession closePromise s))) in
   map placement (scheduled_since restarted (run timing (payload_events [p]) restarted))
     = [ (Qmax 0 (arrival p), duration p) ]).
Proof.
  split; [| split].
  - unfold start_refused. rewrite stopSession_unfold. cbn [hooks ai isConnecting isSessionActive].
    destruct (ai (hooks s)); reflexivity.
  - intros Hbetween. cbv zeta.
    assert (Hcur : nextStartTimeRef (refs (run timing between (stopSession closePromise s)))
                   = 0%Q).
    { assert (H0 : nextStartTimeRef (refs (stopSession closePromise s)) = 0%Q)
        by (rewrite stopSession_unfold; reflexivity).
      revert H0. generalize (stopSession closePromise s).
      induction between as [| ev between IH]; intros c H0; [exact H0 |].
      cbn [forallb] in Hbetween. apply andb_true_iff in Hbetween as [Hev Hrest].
      rewrite run_cons. apply (IH Hrest). apply dispatch_leaves_cursor; assumption. }
    split; [exact Hcur |].
    intros Hctx Hp.
    destruct (payloads_follow_spec timing [p]) with
      (s := run timing between (stopSession closePromise s))
      as (new & Hlog & Hspec); [cbn; rewrite Hp; reflexivity | exact Hctx |].
    rewrite (scheduled_since_app _ _ _ Hlog), Hspec, Hcur. reflexivity.
  - intros Hkey Hgum Hconn Hp. cbv zeta.
    assert (Hguard : start_refused (stopSession closePromise s) = false).
    { unfold start_refused. rewrite stopSession_unfold.
      cbn [hooks ai isConnecting isSessionActive]. rewrite Hkey. reflexivity. }
    unfold startSession. rewrite (startSession_begin_unfold _ Hguard).
    rewrite startSession_resume_unfold, Hgum, Hconn. cbn [state_of].
    set (restarted := onopen source processor _).
    assert (Hfresh : nextStartTimeRef (refs restarted) = 0%Q ∧
                     has_output_context restarted = true).
    { subst restarted. rewrite onopen_unfold, stopSession_unfold.
      unfold set_sessionPromiseRef, on_refs, acquired, has_output_context.
      cbn [hooks refs browser inputAudioContextRef streamRef outputAudioContextRef
           nextStartTimeRef]. split; reflexivity. }
    destruct Hfresh as [Hcur Hctx].
    destruct (payloads_follow_spec timing [p]) with (s := restarted)
      as (new & Hlog & Hspec); [cbn; rewrite Hp; reflexivity | exact Hctx |].
    rewrite (scheduled_since_app _ _ _ Hlog), Hspec, Hcur. reflexivity.
Qed.

Lemma restart_begins_at_the_clock_witness :
  map placement
    (scheduled_since
       (run EveryCall [StartClicked; MediaSettled microphone_denied; StartClicked;
                       MediaSettled all_granted; Opened 5 6;
                       MessageArrived 3 (input_text "Hello")]
          (stopSession true (run EveryCall (payload_events two_payloads) opened_session)))
       (run EveryCall (payload_events [ {| arrival := 1; message := model_turn [audio_part "AAAA"];
                                           duration := 2; node := 9 |} ])
          (run EveryCall [StartClicked; MediaSettled microphone_denied; StartClicked;
                          MediaSettled all_granted; Opened 5 6;
                          MessageArrived 3 (input_text "Hello")]
             (stopSession true (run EveryCall (payload_events two_payloads) opened_session)))))
  = [ (Qmax 0 1, 2%Q) ] ∧
  map placement
    (scheduled_since
       (onopen 5 6 (state_of (startSession all_granted
          (stopSession true (run EveryCall (payload_events two_payloads) opened_session)))))
       (run EveryCall (payload_events [ {| arrival := 1; message := model_turn [audio_part "AAAA"];
                                           duration := 2; node := 9 |} ])
          (onopen 5 6 (state_of (startSession all_granted
             (stopSession true (run EveryCall (payload_events two_payloads) opened_session)))))))
  = [ (Qmax 0 1, 2%Q) ].
Proof.
  destruct (restart_begins_at_the_clock EveryCall true
              [StartClicked; MediaSettled microphone_denied; StartClicked;
               MediaSettled all_granted; Opened 5 6;
               MessageArrived 3 (input_text "Hello")]
              all_granted 1 4 5 6
              {| arrival := 1; message := model_turn [audio_part "AAAA"];
                 duration := 2; node := 9 |}
              (run EveryCall (payload_events two_payloads) opened_session)) as (_ & H & H').
  destruct (H eq_refl) as [_ Hp].
  split; [exact (Hp eq_refl eq_refl) | exact (H' eq_refl eq_refl eq_refl eq_refl)].
Defined.

(** ** The button *)

(** X15: what a click does.  A disabled button (connecting, or no key)
    changes nothing.  An enabled click is never turned away by the guard of
    line 44: on an idle session it runs [startSession] up to its [await],
    which disables the button; on an active session it runs [stopSession]
    with the close of the transport asked for, and the session is idle. *)
Theorem click_starts_or_stops (s : Component) :
  (disabled (view s) = true -> click s = Returned s) ∧
  (disabled (view s) = false -> isSessionActive (hooks s) = false ->
     ∃ s', click s = Suspended s' ∧ startSession_begin s = Suspended s' ∧
           disabled (view s') = true) ∧
  (disabled (view s) = false -> isSessionActive (hooks s) = true ->
     click s = Returned (stopSession true s) ∧
     idle (stopSession true s) = true ∧
     handle_set (sessionPromiseRef (refs s)) ⊆ closeRequested (browser (stopSession true s))).
Proof.
  unfold click, view.
  cbn [disabled onClick].
  split; [| split].
  - intros ->. reflexivity.
  - intros Hd Ha. rewrite Hd, Ha.
    assert (Hguard : start_refused s = false).
    { unfold start_refused. rewrite Ha.
      destruct (isConnecting (hooks s)), (ai (hooks s)); first [reflexivity | discriminate Hd]. }
    rewrite (startSession_begin_unfold s Hguard).
    eexists. split; [reflexivity |]. split; reflexivity.
  - intros Hd Ha. rewrite Hd, Ha. split; [reflexivity |].
    unfold idle. rewrite stopSession_unfold.
    cbn [hooks browser isConnecting isSessionActive closeRequested]. split; [reflexivity |].
    set_solver.
Qed.

Lemma click_starts_or_stops_witness :
  click opened_session = Returned (stopSession true opened_session).
Proof.
  destruct (click_starts_or_stops opened_session) as (_ & _ & H).
  destruct (H eq_refl eq_refl) as [Hc _]. exact Hc.
Defined.

(** ** The caller *)

(** X16: [renderContent] gives a different screen for each feature, so a
    change of [activeFeature] always replaces the screen; the live
    conversation is rendered for the feature [live-conversation] and for no
    other, and only the video generation is wrapped in the key selector. *)
Theorem renderContent_injective (f g : App.Feature) :
  (App.renderContent f = App.renderContent g -> f = g) ∧
  (App.renderContent f = App.LiveConversation ↔ f = App.live_conversation) ∧
  ((∃ child, App.renderContent f = App.ApiKeySelector child) ↔ f = App.video_generation).
Proof.
  split; [| split].
  - destruct f, g; cbn; intros H; first [reflexivity | discriminate H].
  - split; [destruct f; cbn; intros H; first [reflexivity | discriminate H] | intros ->; reflexivity].
  - split.
    + intros [child H]. destruct f; cbn in H; first [reflexivity | discriminate H].
    + intros ->. eexists. reflexivity.
Qed.

Lemma renderContent_injective_witness :
  App.renderContent App.live_conversation = App.LiveConversation.
Proof.
  destruct (renderContent_injective App.live_conversation App.chat) as (_ & [_ H] & _).
  exact (H eq_refl).
Defined.
